(** * Task scheduler: the scheduling and restructuring core of [app.py]

    A shallow embedding of the two operations of [src/app.py]:
    - [run_scheduler] (priority ranking, large-task detection, greedy
      allocation of tasks to free-time windows, daily summary);
    - [breakdown_task] (the five restructuring approaches applied to the
      stored task table).

    Conventions of the embedding.
    - A pandas table is a list of rows together with the set of columns it
      carries.  A cell is an [option]: [None] is the missing value (NaN for
      numbers, NaT for dates, NaN/None for text).
    - Hours are exact rationals ([Q]); rounding of binary floating point is
      not modelled.  NaN is modelled: comparisons with it are false and
      arithmetic with it gives NaN, as in Python.
    - Dates are day numbers ([Z]); [strftime] and the printing of numbers
      are parameters of the model. *)

From Stdlib Require Import ZArith QArith Lqa Lia.
From Stdlib Require Import List Bool String Ascii DecimalString.
From Stdlib Require Import Permutation Sorted.
Import ListNotations.

(** ** Values as pandas and Python see them *)

Module Py.

(** A table cell; [None] is NaN / NaT / None. *)
Definition cell (A : Type) : Type := option A.

(** [pd.notnull]. *)
Definition notnull {A : Type} (c : cell A) : bool :=
  match c with Some _ => true | None => false end.

Definition Qltb (x y : Q) : bool := negb (Qle_bool y x).

(** [c <= 0] on a possibly-NaN number: false on NaN. *)
Definition num_le0 (c : cell Q) : bool :=
  match c with Some q => Qle_bool q 0 | None => false end.

(** [c > k] on a possibly-NaN number: false on NaN. *)
Definition num_gt (c : cell Q) (k : Q) : bool :=
  match c with Some q => Qltb k q | None => false end.

(** [a - b], NaN if either side is. *)
Definition num_sub (a b : cell Q) : cell Q :=
  match a, b with
  | Some x, Some y => Some (x - y)%Q
  | _, _ => None
  end.

(** Python's [min(a, b)]: [b] when [b < a], otherwise [a]; a comparison
    with NaN is false, so [min(nan, b)] is [nan]. *)
Definition py_min (a b : cell Q) : cell Q :=
  match a, b with
  | Some x, Some y => if Qltb y x then b else a
  | _, _ => a
  end.

(** A column's [.sum()]: missing values are skipped. *)
Fixpoint nansum (l : list (cell Q)) : Q :=
  match l with
  | [] => 0
  | Some q :: l' => q + nansum l'
  | None :: l' => nansum l'
  end.

(** [str(x)] of a text cell: a missing one prints as [nan]. *)
Definition str (c : cell string) : string :=
  match c with Some s => s | None => "nan"%string end.

(** [tag in s]: [tag] occurs in [s] as a substring. *)
Fixpoint contains (tag s : string) : bool :=
  String.prefix tag s ||
  match s with
  | EmptyString => false
  | String _ s' => contains tag s'
  end.

(** *** [sort_values]

    Sorting on a list of keys goes through pandas' lexsort indexer, which
    is a stable sort; it is modelled as insertion sort that places an
    element before the first one it does not exceed.  (Sorting on a single
    key uses the default sort kind, whose order among equal keys is not
    fixed; the same function is used, and nothing proved below about the
    free-time windows depends on the order among windows of one date.) *)
Section Sort.
Context {A : Type} (leb : A -> A -> bool).

Fixpoint insert (x : A) (l : list A) : list A :=
  match l with
  | [] => [x]
  | y :: l' => if leb x y then x :: l else y :: insert x l'
  end.

Fixpoint sort_values (l : list A) : list A :=
  match l with
  | [] => []
  | x :: l' => insert x (sort_values l')
  end.

(** The order as a proposition, and the test that two elements tie. *)
Definition le_of (a b : A) : Prop := leb a b = true.

End Sort.

(** Ascending order on a column with missing values: they go last
    ([na_position='last']) and tie with each other. *)
Definition nan_last_leb (a b : cell Z) : bool :=
  match a, b with
  | Some x, Some y => (x <=? y)%Z
  | _, None => true
  | None, Some _ => false
  end.

End Py.

Import Py.

(** ** The scheduler: [run_scheduler] *)

Module Scheduler.

Local Open Scope string_scope.

(** *** Records *)

(** One row of [tasks_df], after [pd.to_datetime(..., errors='coerce')]
    has turned every due date into a date or NaT. *)
Record TaskRow : Type := {
  Task : cell string;
  Estimated_Time : cell Q;
  Due_Date : cell Z;
  Importance : cell Z;
  Complexity : cell Z
}.

(** The columns [tasks_df] carries: a column exists as soon as one input
    record has the key.  [has_other] stands for any further column. *)
Record TaskColumns : Type := {
  has_Task : bool;
  has_Estimated_Time : bool;
  has_Due_Date : bool;
  has_Importance : bool;
  has_Complexity : bool;
  has_other : bool
}.

Record TasksDF : Type := {
  columns : TaskColumns;
  rows : list TaskRow
}.

(** One row of [free_time_df]; both of its columns are taken as present
    and its dates as parsed. *)
Record Window : Type := {
  Date : Z;
  Available_Hours : cell Q
}.

(** An entry of [scheduled_tasks].  The code stores the date as the text
    [strftime('%Y-%m-%d')] of the window's date; the day number is kept. *)
Record Allocation : Type := {
  alloc_Task : cell string;
  alloc_Date : Z;
  Allocated_Hours : cell Q
}.

(** An entry of [large_tasks]. *)
Record LargeTask : Type := {
  lt_id : nat;
  lt_Task : cell string;
  lt_Estimated_Time : cell Q;
  lt_Due_Date : cell Z
}.

(** An entry of [daily_summary]. *)
Record DailySummaryEntry : Type := {
  ds_Date : Z;
  Total_Available : Q;
  Total_Scheduled : cell Q
}.

(** The JSON object returned; an optional field is a key that the early
    exit leaves out. *)
Record Response : Type := {
  totalFreeTime : option Q;
  totalTaskTime : option Q;
  scheduledTasks : list Allocation;
  dailySummary : option (list DailySummaryEntry);
  warnings : list string;
  largeTasks : list LargeTask
}.

(** What the walk of the windows did for one task that was not skipped. *)
Record TaskTrace : Type := {
  tr_task : TaskRow;
  tr_due : cell Z;
  tr_allocs : list Allocation;
  tr_remaining : cell Q;
  tr_before : list Window;
  tr_after : list Window;
  tr_warnings : list string
}.

Inductive outcome : Type :=
| Ok (r : Response)
| KeyError (column : string).

(** *** Table helpers *)

(** [df.empty]: no rows, or no columns. *)
Definition empty (df : TasksDF) : bool :=
  match rows df with
  | [] => true
  | _ :: _ =>
      let c := columns df in
      negb (has_Task c || has_Estimated_Time c || has_Due_Date c
            || has_Importance c || has_Complexity c || has_other c)
  end.

(** [df.iterrows()]: each row with its label, the position in the input. *)
Definition iterrows (df : TasksDF) : list (nat * TaskRow) :=
  combine (seq 0 (List.length (rows df))) (rows df).

Fixpoint filter_map {A B : Type} (f : A -> option B) (l : list A) : list B :=
  match l with
  | [] => []
  | x :: l' =>
      match f x with
      | Some y => y :: filter_map f l'
      | None => filter_map f l'
      end
  end.

Definition window_leb (a b : Window) : bool := (Date a <=? Date b)%Z.

(** *** Large-task check (lines 97-114) *)

Definition exemption_tags : list string :=
  ["[MULTI-SESSION]"; "[FIXED EVENT]"; "[PENDING PLANNING]"].

Definition is_large (task : TaskRow) : bool :=
  num_gt (Estimated_Time task) 6
  && negb (existsb (fun tag => contains tag (str (Task task))) exemption_tags).

Definition large_warning (task_name : cell string) : string :=
  "Task '" ++ str task_name
  ++ "' exceeds 6 hours and should probably be split unless it's a Work Block.".

Definition large_record (cols : TaskColumns) (idx : nat) (task : TaskRow)
  : LargeTask :=
  {| lt_id := idx;
     lt_Task := Task task;
     lt_Estimated_Time := Estimated_Time task;
     lt_Due_Date := if has_Due_Date cols && notnull (Due_Date task)
                    then Due_Date task else None |}.

(** One turn of the loop: the record and the warning appended, if any. *)
Definition check_large (cols : TaskColumns) (entry : nat * TaskRow)
  : option (LargeTask * string) :=
  let (idx, task) := entry in
  if negb (has_Estimated_Time cols) || negb (has_Task cols) then None
  else if is_large task
       then Some (large_record cols idx task, large_warning (Task task))
       else None.

(** *** Priority (lines 117-125) *)

Definition calc_priority (today : Z) (row : TaskRow) : cell Z :=
  let days_until_due :=
    match Due_Date row with
    | Some d => (d - today)%Z
    | None => 9999%Z
    end in
  match Importance row with
  | Some i => Some (days_until_due * 1 - i * 5)%Z
  | None => None
  end.

(** The sort key [['Priority Score', 'Complexity']]. *)
Definition sort_key (today : Z) (row : TaskRow) : cell Z * cell Z :=
  (calc_priority today row, Complexity row).

(** Lexicographic ascending order on the key. *)
Definition key_leb (k1 k2 : cell Z * cell Z) : bool :=
  if nan_last_leb (fst k1) (fst k2)
  then if nan_last_leb (fst k2) (fst k1)
       then nan_last_leb (snd k1) (snd k2)
       else true
  else false.

Definition task_leb (today : Z) (a b : nat * TaskRow) : bool :=
  key_leb (sort_key today (snd a)) (sort_key today (snd b)).

(** The order in which the allocator sees the tasks; [None] is the
    [KeyError] that [sort_values] raises on a missing Complexity column. *)
Definition prioritize (today : Z) (df : TasksDF)
  : option (list (nat * TaskRow)) :=
  let c := columns df in
  if negb (empty df) && has_Due_Date c && has_Importance c
  then if has_Complexity c
       then Some (sort_values (task_leb today) (iterrows df))
       else None
  else Some (iterrows df).

(** *** Allocation (lines 128-160) *)

Section Formatting.

(** [strftime('%Y-%m-%d')] of a date and the printing of a number inside
    an f-string. *)
Variable strftime : Z -> string.
Variable str_num : Q -> string.

Definition fmt_num (c : cell Q) : string :=
  match c with Some q => str_num q | None => "nan" end.

(** [pd.notnull(due_date) and window['Date'] > due_date]. *)
Definition past_due (due_date : cell Z) (window : Window) : bool :=
  match due_date with
  | Some d => (Date window >? d)%Z
  | None => false
  end.

(** The walk of the windows for one task: the allocations appended, the
    windows after the walk, and what remains of the task's time. *)
Fixpoint walk (task_name : cell string) (due_date : cell Z)
         (task_time_remaining : cell Q) (windows : list Window)
  : list Allocation * list Window * cell Q :=
  match windows with
  | [] => ([], [], task_time_remaining)
  | window :: rest =>
      if num_le0 task_time_remaining
      then ([], windows, task_time_remaining)
      else if past_due due_date window
      then ([], windows, task_time_remaining)
      else
        let available_hours := Available_Hours window in
        if num_gt available_hours 0
        then
          let allocated_time := py_min task_time_remaining available_hours in
          let '(allocs, rest', remaining) :=
            walk task_name due_date
                 (num_sub task_time_remaining allocated_time) rest in
          ({| alloc_Task := task_name;
              alloc_Date := Date window;
              Allocated_Hours := allocated_time |} :: allocs,
           {| Date := Date window;
              Available_Hours := num_sub available_hours allocated_time |}
             :: rest',
           remaining)
        else
          let '(allocs, rest', remaining) :=
            walk task_name due_date task_time_remaining rest in
          (allocs, window :: rest', remaining)
  end.

Definition handle_warning (task : TaskRow) (due : Z) (remaining : cell Q)
  : string :=
  "HANDLE: " ++ str (Task task) ++ " (Due: " ++ strftime due ++ ") "
  ++ "needs " ++ fmt_num (Estimated_Time task) ++ "h, but only "
  ++ fmt_num (num_sub (Estimated_Time task) remaining)
  ++ "h scheduled before due date.".

(** The check after the walk (lines 155-160). *)
Definition shortfall (task : TaskRow) (due_date : cell Z)
           (remaining : cell Q) : list string :=
  match due_date with
  | Some d =>
      if num_gt remaining 0 then [handle_warning task d remaining] else []
  | None => []
  end.

(** [task['Due Date'] if 'Due Date' in task else None]. *)
Definition due_of (cols : TaskColumns) (task : TaskRow) : cell Z :=
  if has_Due_Date cols then Due_Date task else None.

(** One turn of the loop over the tasks, for a task that is not skipped. *)
Definition allocate_task (cols : TaskColumns) (task : TaskRow)
           (windows : list Window) : TaskTrace * list Window :=
  let due_date := due_of cols task in
  let '(allocs, windows', remaining) :=
    walk (Task task) due_date (Estimated_Time task) windows in
  ({| tr_task := task;
      tr_due := due_date;
      tr_allocs := allocs;
      tr_remaining := remaining;
      tr_before := windows;
      tr_after := windows';
      tr_warnings := shortfall task due_date remaining |},
   windows').

(** The loop over the tasks; the windows are threaded through it. *)
Fixpoint allocate (cols : TaskColumns) (tasks : list (nat * TaskRow))
         (windows : list Window) : list TaskTrace * list Window :=
  match tasks with
  | [] => ([], windows)
  | (_, task) :: rest =>
      if negb (has_Estimated_Time cols) || negb (has_Task cols)
      then allocate cols rest windows
      else
        let (t, windows') := allocate_task cols task windows in
        let (ts, windows'') := allocate cols rest windows' in
        (t :: ts, windows'')
  end.

(** *** Daily summary (lines 163-180) *)

(** The keys of [groupby('Date')], in order of first appearance; the
    windows are sorted by date, so this is ascending order. *)
Fixpoint group_keys (dates : list Z) : list Z :=
  match dates with
  | [] => []
  | d :: dates' => d :: filter (fun d' => negb (d' =? d)%Z) (group_keys dates')
  end.

Definition on_date (d : Z) (windows : list Window) : list Window :=
  filter (fun w => (Date w =? d)%Z) windows.

Definition summary_init (windows : list Window) : list DailySummaryEntry :=
  map (fun d => {| ds_Date := d;
                   Total_Available :=
                     nansum (map Available_Hours (on_date d windows));
                   Total_Scheduled := Some 0%Q |})
      (group_keys (map Date windows)).

Definition num_add (a b : cell Q) : cell Q :=
  match a, b with
  | Some x, Some y => Some (x + y)%Q
  | _, _ => None
  end.

(** The inner loop: the first entry of that date gets the hours. *)
Fixpoint add_scheduled (date : Z) (hours : cell Q)
         (summary : list DailySummaryEntry) : list DailySummaryEntry :=
  match summary with
  | [] => []
  | s :: summary' =>
      if (ds_Date s =? date)%Z
      then {| ds_Date := ds_Date s;
              Total_Available := Total_Available s;
              Total_Scheduled := num_add (Total_Scheduled s) hours |}
             :: summary'
      else s :: add_scheduled date hours summary'
  end.

Definition daily_summary (windows : list Window)
           (scheduled : list Allocation) : list DailySummaryEntry :=
  fold_left (fun summary a =>
               add_scheduled (alloc_Date a) (Allocated_Hours a) summary)
            scheduled (summary_init windows).

(** *** The operation *)

Definition no_work_warning : string :=
  "No tasks or free time available for scheduling.".

Definition is_nil {A : Type} (l : list A) : bool :=
  match l with [] => true | _ :: _ => false end.

(** The windows the allocator walks: a copy sorted by date. *)
Definition working_free_time (free_time_df : list Window) : list Window :=
  sort_values window_leb free_time_df.

(** The per-task record of the allocation, for a call that gets there. *)
Definition allocation_trace (today : Z) (tasks_df : TasksDF)
           (free_time_df : list Window) : option (list TaskTrace * list Window) :=
  match prioritize today tasks_df with
  | Some ordered =>
      Some (allocate (columns tasks_df) ordered
                     (working_free_time free_time_df))
  | None => None
  end.

Definition run_scheduler (today : Z) (tasks_df : TasksDF)
           (free_time_df : list Window) : outcome :=
  if empty tasks_df || is_nil free_time_df
  then Ok {| totalFreeTime := None;
             totalTaskTime := None;
             scheduledTasks := [];
             dailySummary := None;
             warnings := [no_work_warning];
             largeTasks := [] |}
  else
    let cols := columns tasks_df in
    let total_free_time :=
      nansum (map Available_Hours (working_free_time free_time_df)) in
    let total_task_time :=
      if has_Estimated_Time cols
      then nansum (map Estimated_Time (rows tasks_df)) else 0%Q in
    let large := filter_map (check_large cols) (iterrows tasks_df) in
    match allocation_trace today tasks_df free_time_df with
    | None => KeyError "Complexity"
    | Some (trace, working) =>
        let scheduled := flat_map tr_allocs trace in
        Ok {| totalFreeTime := Some total_free_time;
              totalTaskTime := Some total_task_time;
              scheduledTasks := scheduled;
              dailySummary := Some (daily_summary working scheduled);
              warnings := map snd large ++ flat_map tr_warnings trace;
              largeTasks := map fst large |}
    end.

End Formatting.

End Scheduler.

(** ** The restructurer: [breakdown_task] *)

Module Restructure.

Local Open Scope string_scope.

(** *** Records *)

(** One row of the stored task table as [load_data] reads it: the six
    default columns and the three metadata columns the approaches add.
    The cells of a column the table does not carry are [None]. *)
Record TaskRow : Type := {
  Project : cell string;
  Task : cell string;
  Estimated_Time : cell Q;
  Due_Date : cell string;
  Importance : cell Z;
  Complexity : cell Z;
  Focus_Sessions : cell Z;
  Session_Length : cell Q;
  Event_Type : cell string
}.

Record Columns : Type := {
  has_Project : bool;
  has_Task : bool;
  has_Estimated_Time : bool;
  has_Due_Date : bool;
  has_Importance : bool;
  has_Complexity : bool;
  has_Focus_Sessions : bool;
  has_Session_Length : bool;
  has_Event_Type : bool
}.

(** The table in [TASKS_FILE]; a row's label is its position. *)
Record TasksDF : Type := {
  columns : Columns;
  rows : list TaskRow
}.

Record Subtask : Type := {
  sub_name : string;
  sub_hours : Q
}.

(** The [params] object; [None] is a key that is not there, for which
    [params.get] answers its default. *)
Record Params : Type := {
  taskName : option string;
  date : option string;
  hours : option Q;
  subtasks : list Subtask;
  sessionLength : option Q;
  numSessions : option Z;
  updateName : option bool;
  newName : option string;
  explorationHours : option Q
}.

Inductive exn : Type :=
| IndexError
| KeyError (key : string).

(** How a call ends: the success reply, sent after [save_data] has written
    the table; an error reply, sent before [save_data] is reached; or an
    exception nobody catches, also before [save_data]. *)
Inductive outcome : Type :=
| Success (saved : TasksDF)
| Error (code : nat) (message : string)
| Raised (e : exn).

(** The contents of [TASKS_FILE] after the call. *)
Definition stored_after (stored : TasksDF) (o : outcome) : TasksDF :=
  match o with
  | Success saved => saved
  | Error _ _ | Raised _ => stored
  end.

(** *** Cell updates *)

Definition nan_row : TaskRow :=
  {| Project := None; Task := None; Estimated_Time := None;
     Due_Date := None; Importance := None; Complexity := None;
     Focus_Sessions := None; Session_Length := None; Event_Type := None |}.

Definition set_Project (v : cell string) (r : TaskRow) : TaskRow :=
  {| Project := v; Task := Task r; Estimated_Time := Estimated_Time r;
     Due_Date := Due_Date r; Importance := Importance r;
     Complexity := Complexity r; Focus_Sessions := Focus_Sessions r;
     Session_Length := Session_Length r; Event_Type := Event_Type r |}.

Definition set_Task (v : cell string) (r : TaskRow) : TaskRow :=
  {| Project := Project r; Task := v; Estimated_Time := Estimated_Time r;
     Due_Date := Due_Date r; Importance := Importance r;
     Complexity := Complexity r; Focus_Sessions := Focus_Sessions r;
     Session_Length := Session_Length r; Event_Type := Event_Type r |}.

Definition set_Estimated_Time (v : cell Q) (r : TaskRow) : TaskRow :=
  {| Project := Project r; Task := Task r; Estimated_Time := v;
     Due_Date := Due_Date r; Importance := Importance r;
     Complexity := Complexity r; Focus_Sessions := Focus_Sessions r;
     Session_Length := Session_Length r; Event_Type := Event_Type r |}.

Definition set_Focus_Sessions (v : cell Z) (r : TaskRow) : TaskRow :=
  {| Project := Project r; Task := Task r; Estimated_Time := Estimated_Time r;
     Due_Date := Due_Date r; Importance := Importance r;
     Complexity := Complexity r; Focus_Sessions := v;
     Session_Length := Session_Length r; Event_Type := Event_Type r |}.

Definition set_Session_Length (v : cell Q) (r : TaskRow) : TaskRow :=
  {| Project := Project r; Task := Task r; Estimated_Time := Estimated_Time r;
     Due_Date := Due_Date r; Importance := Importance r;
     Complexity := Complexity r; Focus_Sessions := Focus_Sessions r;
     Session_Length := v; Event_Type := Event_Type r |}.

Definition set_Event_Type (v : cell string) (r : TaskRow) : TaskRow :=
  {| Project := Project r; Task := Task r; Estimated_Time := Estimated_Time r;
     Due_Date := Due_Date r; Importance := Importance r;
     Complexity := Complexity r; Focus_Sessions := Focus_Sessions r;
     Session_Length := Session_Length r; Event_Type := v |}.

Definition with_Project (c : Columns) : Columns :=
  {| has_Project := true; has_Task := has_Task c;
     has_Estimated_Time := has_Estimated_Time c;
     has_Due_Date := has_Due_Date c; has_Importance := has_Importance c;
     has_Complexity := has_Complexity c;
     has_Focus_Sessions := has_Focus_Sessions c;
     has_Session_Length := has_Session_Length c;
     has_Event_Type := has_Event_Type c |}.

(** The columns after [pd.concat] with a table of the six default ones. *)
Definition with_defaults (c : Columns) : Columns :=
  {| has_Project := true; has_Task := true; has_Estimated_Time := true;
     has_Due_Date := true; has_Importance := true; has_Complexity := true;
     has_Focus_Sessions := has_Focus_Sessions c;
     has_Session_Length := has_Session_Length c;
     has_Event_Type := has_Event_Type c |}.

Definition with_Focus_Sessions (c : Columns) : Columns :=
  {| has_Project := has_Project c; has_Task := has_Task c;
     has_Estimated_Time := has_Estimated_Time c;
     has_Due_Date := has_Due_Date c; has_Importance := has_Importance c;
     has_Complexity := has_Complexity c;
     has_Focus_Sessions := true;
     has_Session_Length := has_Session_Length c;
     has_Event_Type := has_Event_Type c |}.

Definition with_Session_Length (c : Columns) : Columns :=
  {| has_Project := has_Project c; has_Task := has_Task c;
     has_Estimated_Time := has_Estimated_Time c;
     has_Due_Date := has_Due_Date c; has_Importance := has_Importance c;
     has_Complexity := has_Complexity c;
     has_Focus_Sessions := has_Focus_Sessions c;
     has_Session_Length := true;
     has_Event_Type := has_Event_Type c |}.

Definition with_Event_Type (c : Columns) : Columns :=
  {| has_Project := has_Project c; has_Task := has_Task c;
     has_Estimated_Time := has_Estimated_Time c;
     has_Due_Date := has_Due_Date c; has_Importance := has_Importance c;
     has_Complexity := has_Complexity c;
     has_Focus_Sessions := has_Focus_Sessions c;
     has_Session_Length := has_Session_Length c;
     has_Event_Type := true |}.

(** *** Indexing, as pandas does it *)

(** A table in the middle of a call: rows with their labels. *)
Definition labelled : Type := list (Z * TaskRow).

Definition label_rows (l : list TaskRow) : labelled :=
  combine (map Z.of_nat (seq 0 (List.length l))) l.

Definition unlabel (l : labelled) : list TaskRow := map snd l.

(** [df.iloc[i]]: by position, a negative one counting from the end;
    [None] is the [IndexError]. *)
Definition iloc (i : Z) (l : list TaskRow) : option TaskRow :=
  let n := Z.of_nat (List.length l) in
  if (0 <=? i)%Z then nth_error l (Z.to_nat i)
  else if (0 <=? n + i)%Z then nth_error l (Z.to_nat (n + i))
  else None.

Definition has_label (label : Z) (l : labelled) : bool :=
  existsb (fun e => (fst e =? label)%Z) l.

Definition update_label (label : Z) (upd : TaskRow -> TaskRow) (l : labelled)
  : labelled :=
  map (fun e => if (fst e =? label)%Z then (fst e, upd (snd e)) else e) l.

(** [df.at[label, column] = value]: by label; a label the table does not
    have makes pandas append a row of that label, empty but for the cell
    (setting with enlargement). *)
Definition at_set (label : Z) (upd : TaskRow -> TaskRow) (l : labelled)
  : labelled :=
  if has_label label l then update_label label upd l
  else (l ++ [(label, upd nan_row)])%list.

(** [df.drop(label)]: by label; [None] is the [KeyError] for a label the
    table does not have. *)
Definition drop (label : Z) (l : labelled) : option labelled :=
  if has_label label l
  then Some (filter (fun e => negb (fst e =? label)%Z) l)
  else None.

(** [df[column] = None]: the whole column, every row. *)
Definition update_all (upd : TaskRow -> TaskRow) (l : labelled) : labelled :=
  map (fun e => (fst e, upd (snd e))) l.

Definition get_or {A : Type} (default : A) (o : option A) : A :=
  match o with Some v => v | None => default end.

(** *** The five approaches (lines 213-314) *)

Definition planning (task_id : Z) (params : Params) (df : TasksDF)
           (task : TaskRow) : outcome :=
  let task_name := Task task in
  let planning_task_name :=
    get_or ("Plan breakdown of: " ++ str task_name) (taskName params) in
  let planning_date := date params in
  let planning_hours := get_or 1%Q (hours params) in
  let new_task :=
    {| Project := if has_Project (columns df) then Project task
                  else Some "Planning";
       Task := Some planning_task_name;
       Estimated_Time := Some planning_hours;
       Due_Date := planning_date;
       Importance := Some 4%Z;
       Complexity := Some 2%Z;
       Focus_Sessions := None; Session_Length := None; Event_Type := None |} in
  let updated :=
    at_set task_id (set_Task (Some (str task_name ++ " [PENDING PLANNING]")))
           (label_rows (rows df)) in
  Success {| columns := with_defaults (columns df);
             rows := (unlabel updated ++ [new_task])%list |}.

Definition breakdown (task_id : Z) (params : Params) (df : TasksDF)
           (task : TaskRow) : outcome :=
  match subtasks params with
  | [] => Error 400 "No subtasks provided"
  | _ :: _ =>
      let new_tasks :=
        map (fun subtask =>
               set_Estimated_Time (Some (sub_hours subtask))
                 (set_Task (Some (sub_name subtask)) task))
            (subtasks params) in
      match drop task_id (label_rows (rows df)) with
      | None => Raised (KeyError "task_id")
      | Some kept =>
          Success {| columns := columns df;
                     rows := (unlabel kept ++ new_tasks)%list |}
      end
  end.

Definition focus (task_id : Z) (params : Params) (df : TasksDF)
           (task : TaskRow) : outcome :=
  let task_name := Task task in
  let session_length := get_or 2%Q (sessionLength params) in
  let num_sessions := get_or 0%Z (numSessions params) in
  let update_name := get_or true (updateName params) in
  let new_name := get_or (str task_name ++ " [MULTI-SESSION]") (newName params) in
  let l0 := label_rows (rows df) in
  let l1 := if update_name then at_set task_id (set_Task (Some new_name)) l0
            else l0 in
  let l2 := if has_Focus_Sessions (columns df) then l1
            else update_all (set_Focus_Sessions None) l1 in
  let l3 := if has_Session_Length (columns df) then l2
            else update_all (set_Session_Length None) l2 in
  let l4 := at_set task_id (set_Focus_Sessions (Some num_sessions)) l3 in
  let l5 := at_set task_id (set_Session_Length (Some session_length)) l4 in
  Success {| columns := with_Session_Length (with_Focus_Sessions (columns df));
             rows := unlabel l5 |}.

Definition iterative (task_id : Z) (params : Params) (df : TasksDF)
           (task : TaskRow) : outcome :=
  let task_name := Task task in
  let hours := Estimated_Time task in
  let exploration_hours := get_or 2%Q (explorationHours params) in
  let exploration_task :=
    set_Estimated_Time (Some exploration_hours)
      (set_Task (Some ("Initial exploration: " ++ str task_name))
         (set_Project (Some ("Iterative: " ++ str task_name)) task)) in
  let remaining_task :=
    set_Estimated_Time (num_sub hours (Some exploration_hours))
      (set_Task (Some (str task_name ++ " [REMAINING WORK]"))
         (set_Project (Some ("Iterative: " ++ str task_name)) task)) in
  match drop task_id (label_rows (rows df)) with
  | None => Raised (KeyError "task_id")
  | Some kept =>
      Success {| columns := with_Project (columns df);
                 rows := (unlabel kept ++ [exploration_task; remaining_task])%list |}
  end.

Definition fixed (task_id : Z) (params : Params) (df : TasksDF)
           (task : TaskRow) : outcome :=
  let task_name := Task task in
  let update_name := get_or true (updateName params) in
  let new_name := get_or (str task_name ++ " [FIXED EVENT]") (newName params) in
  let l0 := label_rows (rows df) in
  let l1 := if update_name then at_set task_id (set_Task (Some new_name)) l0
            else l0 in
  let l2 := if has_Event_Type (columns df) then l1
            else update_all (set_Event_Type None) l1 in
  let l3 := at_set task_id (set_Event_Type (Some "Fixed Duration")) l2 in
  Success {| columns := with_Event_Type (columns df);
             rows := unlabel l3 |}.

(** *** The operation (lines 194-322)

    [tasks_df] is what [load_data(TASKS_FILE, ...)] returns. *)
Definition breakdown_task (task_id : Z) (approach : string) (params : Params)
           (tasks_df : TasksDF) : outcome :=
  if (task_id >=? Z.of_nat (List.length (rows tasks_df)))%Z
  then Error 404 "Task not found"
  else
    match iloc task_id (rows tasks_df) with
    | None => Raised IndexError
    | Some task =>
        if negb (has_Task (columns tasks_df)) then Raised (KeyError "Task")
        else if negb (has_Estimated_Time (columns tasks_df))
        then Raised (KeyError "Estimated Time")
        else if approach =? "planning" then planning task_id params tasks_df task
        else if approach =? "breakdown" then breakdown task_id params tasks_df task
        else if approach =? "focus" then focus task_id params tasks_df task
        else if approach =? "iterative" then iterative task_id params tasks_df task
        else if approach =? "fixed" then fixed task_id params tasks_df task
        else Error 400 "Invalid approach"
    end.

End Restructure.

(** ** The statements' vocabulary *)

Module SchedulerSpec.

Import Scheduler.








(** The allocator skips no task: the table has a duration column and a
    name column. *)
Definition not_skipped (cols : TaskColumns) : bool :=
  has_Estimated_Time cols && has_Task cols.






(** The windows come in ascending order of date. *)
Definition by_date (windows : list Window) : Prop :=
  StronglySorted Z.le (map Date windows).

(** A window that still has hours to give. *)
Definition open_window (w : Window) : Prop :=
  exists h, Available_Hours w = Some h /\ (0 < h)%Q.

(** [w'] is [w] after some allocation: the same date, and hours that, if
    they are a number, were a number at least as large before. *)
Definition no_more (w w' : Window) : Prop :=
  Date w' = Date w
  /\ forall h', Available_Hours w' = Some h' ->
       exists h, Available_Hours w = Some h /\ (h' <= h)%Q.

(** The window is within reach of a due date: not dated after it. *)
Definition in_reach (due : cell Z) (w : Window) : Prop :=
  forall d, due = Some d -> (Date w <= d)%Z.








End SchedulerSpec.

Module RestructureSpec.

Import Restructure.

(** The list without its [i]-th element. *)
Definition remove_at {A : Type} (i : nat) (l : list A) : list A :=
  (firstn i l ++ skipn (S i) l)%list.

(** The six default fields but the name agree. *)
Definition same_but_name (t t' : TaskRow) : Prop :=
  Project t' = Project t /\ Estimated_Time t' = Estimated_Time t
  /\ Due_Date t' = Due_Date t /\ Importance t' = Importance t
  /\ Complexity t' = Complexity t.


(** What a metadata cell of a task that is not the target holds after the
    call: its old value if the column was there, null if the call added
    the column. *)
Definition kept_or_null {A : Type} (had_column : bool) (old new : cell A)
  : Prop :=
  new = if had_column then old else None.

(** The part of [breakdown_task] before the dispatch on the approach:
    the range check, the read of the task and of its two fields. *)
Definition guarded (task_id : Z) (df : TasksDF)
           (body : TaskRow -> outcome) : outcome :=
  if (task_id >=? Z.of_nat (List.length (rows df)))%Z
  then Error 404 "Task not found"
  else
    match iloc task_id (rows df) with
    | None => Raised IndexError
    | Some task =>
        if negb (has_Task (columns df)) then Raised (KeyError "Task")
        else if negb (has_Estimated_Time (columns df))
        then Raised (KeyError "Estimated Time")
        else body task
    end.

End RestructureSpec.

(** ** Inputs to run the model on *)

Module Examples.

Local Open Scope string_scope.

(** Plain renderers for the two formatting parameters: a date prints as
    its day number, a number of hours as numerator/denominator. *)
Definition show_Z (z : Z) : string := NilZero.string_of_int (Z.to_int z).

Definition show_date (d : Z) : string := "day " ++ show_Z d.

Definition show_num (q : Q) : string :=
  show_Z (Qnum q) ++ "/" ++ show_Z (Zpos (Qden q)).

(** Two dated tasks and three windows given out of date order. *)
Definition all_columns : Scheduler.TaskColumns :=
  {| Scheduler.has_Task := true;
     Scheduler.has_Estimated_Time := true;
     Scheduler.has_Due_Date := true;
     Scheduler.has_Importance := true;
     Scheduler.has_Complexity := true;
     Scheduler.has_other := false |}.

Definition two_tasks : Scheduler.TasksDF :=
  {| Scheduler.columns := all_columns;
     Scheduler.rows :=
       [ {| Scheduler.Task := Some "Report";
            Scheduler.Estimated_Time := Some 3%Q;
            Scheduler.Due_Date := Some 12%Z;
            Scheduler.Importance := Some 1%Z;
            Scheduler.Complexity := Some 1%Z |};
         {| Scheduler.Task := Some "Migration";
            Scheduler.Estimated_Time := Some 8%Q;
            Scheduler.Due_Date := Some 10%Z;
            Scheduler.Importance := Some 1%Z;
            Scheduler.Complexity := Some 1%Z |} ] |}.

Definition three_windows : list Scheduler.Window :=
  [ {| Scheduler.Date := 13%Z; Scheduler.Available_Hours := Some 5%Q |};
    {| Scheduler.Date := 11%Z; Scheduler.Available_Hours := Some 5%Q |};
    {| Scheduler.Date := 9%Z; Scheduler.Available_Hours := Some 2%Q |} ].


Definition nameless_task : Scheduler.TaskRow :=
  {| Scheduler.Task := None;
     Scheduler.Estimated_Time := Some 8%Q;
     Scheduler.Due_Date := None;
     Scheduler.Importance := None;
     Scheduler.Complexity := None |}.



(** A stored table of one task, with the six default columns. *)
Definition default_columns : Restructure.Columns :=
  {| Restructure.has_Project := true;
     Restructure.has_Task := true;
     Restructure.has_Estimated_Time := true;
     Restructure.has_Due_Date := true;
     Restructure.has_Importance := true;
     Restructure.has_Complexity := true;
     Restructure.has_Focus_Sessions := false;
     Restructure.has_Session_Length := false;
     Restructure.has_Event_Type := false |}.

Definition thesis : Restructure.TaskRow :=
  {| Restructure.Project := Some "Studies";
     Restructure.Task := Some "Thesis";
     Restructure.Estimated_Time := Some 8%Q;
     Restructure.Due_Date := Some "2024-06-01";
     Restructure.Importance := Some 3%Z;
     Restructure.Complexity := Some 2%Z;
     Restructure.Focus_Sessions := None;
     Restructure.Session_Length := None;
     Restructure.Event_Type := None |}.

Definition stored_one : Restructure.TasksDF :=
  {| Restructure.columns := default_columns;
     Restructure.rows := [thesis] |}.

(** A [params] object with no key. *)
Definition no_params : Restructure.Params :=
  {| Restructure.taskName := None;
     Restructure.date := None;
     Restructure.hours := None;
     Restructure.subtasks := [];
     Restructure.sessionLength := None;
     Restructure.numSessions := None;
     Restructure.updateName := None;
     Restructure.newName := None;
     Restructure.explorationHours := None |}.

(** A request to break a task into two subtasks. *)
Definition two_subtasks : Restructure.Params :=
  {| Restructure.taskName := None;
     Restructure.date := None;
     Restructure.hours := None;
     Restructure.subtasks :=
       [ {| Restructure.sub_name := "Outline"; Restructure.sub_hours := 3%Q |};
         {| Restructure.sub_name := "Draft"; Restructure.sub_hours := 5%Q |} ];
     Restructure.sessionLength := None;
     Restructure.numSessions := None;
     Restructure.updateName := None;
     Restructure.newName := None;
     Restructure.explorationHours := None |}.

(** A task table that has durations but no name column: the input
    [[{"Estimated Time": 8}]]. *)
Definition no_name_column : Scheduler.TasksDF :=
  {| Scheduler.columns :=
       {| Scheduler.has_Task := false;
          Scheduler.has_Estimated_Time := true;
          Scheduler.has_Due_Date := false;
          Scheduler.has_Importance := false;
          Scheduler.has_Complexity := false;
          Scheduler.has_other := false |};
     Scheduler.rows := [nameless_task] |}.



End Examples.

(** * Properties *)

(** ** Facts about the Python and pandas values *)

Module PyFacts.

Lemma Qltb_lt (x y : Q) : Qltb x y = true <-> (x < y)%Q.
Proof.
  unfold Qltb. rewrite negb_true_iff. split; intro H.
  - apply Qnot_le_lt. intro L. apply Qle_bool_iff in L. congruence.
  - destruct (Qle_bool y x) eqn:E; trivial.
    apply Qle_bool_iff in E. exfalso. apply (Qlt_not_le _ _ H E).
Qed.

Lemma Qltb_ge (x y : Q) : Qltb x y = false <-> (y <= x)%Q.
Proof.
  unfold Qltb. rewrite negb_false_iff. apply Qle_bool_iff.
Qed.

Lemma num_gt_iff (c : cell Q) (k : Q) :
  num_gt c k = true <-> exists q, c = Some q /\ (k < q)%Q.
Proof.
  destruct c as [q|]; simpl.
  - rewrite Qltb_lt. split.
    + intro H. exists q. auto.
    + intros [q' [E H]]. inversion E. subst. exact H.
  - split; [discriminate | intros [q [E _]]; discriminate].
Qed.

Lemma num_le0_false (q : Q) : num_le0 (Some q) = false -> (0 < q)%Q.
Proof.
  simpl. intro H. apply Qnot_le_lt. intro L.
  apply Qle_bool_iff in L. congruence.
Qed.

(** [py_min] of two numbers is the smaller one. *)
Lemma py_min_some (x y : Q) :
  exists m, py_min (Some x) (Some y) = Some m
            /\ (m <= x)%Q /\ (m <= y)%Q /\ (m == x \/ m == y)%Q.
Proof.
  simpl. destruct (Qltb y x) eqn:E.
  - apply Qltb_lt in E. exists y. repeat split; lra.
  - apply Qltb_ge in E. exists x. repeat split; lra.
Qed.

(** *** [contains] is the substring test *)

Lemma prefix_app (tag s : string) :
  String.prefix tag s = true <-> exists post, s = (tag ++ post)%string.
Proof.
  revert s. induction tag as [|a tag IH]; intros s.
  - split; [intros _; exists s; reflexivity | intros _; destruct s; reflexivity].
  - destruct s as [|b s]; simpl.
    + split; [discriminate | intros [post E]; discriminate].
    + destruct (Ascii.ascii_dec a b) as [->|N].
      * rewrite IH. split; intros [post E]; exists post.
        -- now rewrite E.
        -- now inversion E.
      * split; [discriminate|].
        intros [post E]. inversion E. congruence.
Qed.

Lemma contains_iff (tag s : string) :
  contains tag s = true <->
  exists pre post, s = (pre ++ tag ++ post)%string.
Proof.
  induction s as [|a s IH].
  - cbn [contains]. rewrite orb_false_r, prefix_app. split.
    + intros [post E]. exists EmptyString, post. exact E.
    + intros [pre [post E]]. exists post.
      destruct pre; simpl in E; [exact E | discriminate].
  - cbn [contains]. rewrite orb_true_iff, prefix_app, IH. split.
    + intros [[post E] | [pre [post E]]].
      * exists EmptyString, post. exact E.
      * exists (String a pre), post. simpl. now rewrite E.
    + intros [pre [post E]]. destruct pre as [|b pre].
      * left. exists post. exact E.
      * right. simpl in E. inversion E. subst. eauto.
Qed.

(** *** [sort_values] sorts, permutes and is stable *)

Section SortFacts.
Context {A : Type} (leb : A -> A -> bool).
Hypothesis leb_total : forall a b, leb a b = true \/ leb b a = true.
Hypothesis leb_trans :
  forall a b c, leb a b = true -> leb b c = true -> leb a c = true.

Lemma insert_perm (x : A) (l : list A) :
  Permutation (insert leb x l) (x :: l).
Proof.
  induction l as [|y l IH]; simpl.
  - apply Permutation_refl.
  - destruct (leb x y).
    + apply Permutation_refl.
    + apply perm_trans with (y :: x :: l).
      * apply perm_skip. exact IH.
      * apply perm_swap.
Qed.

Lemma sort_values_perm (l : list A) : Permutation (sort_values leb l) l.
Proof.
  induction l as [|x l IH]; simpl.
  - apply perm_nil.
  - apply perm_trans with (x :: sort_values leb l).
    + apply insert_perm.
    + apply perm_skip. exact IH.
Qed.

Lemma insert_sorted (x : A) (l : list A) :
  StronglySorted (le_of leb) l -> StronglySorted (le_of leb) (insert leb x l).
Proof.
  induction 1 as [|y l S IH F]; simpl.
  - constructor; constructor.
  - destruct (leb x y) eqn:E.
    + constructor.
      * constructor; assumption.
      * constructor; [exact E|].
        eapply Forall_impl; [|exact F].
        intros z Hz. eapply leb_trans; eassumption.
    + constructor; [exact IH|].
      assert (Hyx : le_of leb y x).
      { destruct (leb_total x y) as [H|H]; [congruence | exact H]. }
      apply (Permutation_Forall (Permutation_sym (insert_perm x l))).
      constructor; assumption.
Qed.

Lemma sort_values_sorted (l : list A) :
  StronglySorted (le_of leb) (sort_values leb l).
Proof.
  induction l as [|x l IH]; simpl.
  - constructor.
  - apply insert_sorted. exact IH.
Qed.


End SortFacts.

(** *** The order with missing values last *)





End PyFacts.

(** ** The scheduler *)

Module SchedulerProofs.

Import Scheduler SchedulerSpec PyFacts.

(** *** The ranking order *)








Lemma iterrows_rows (df : TasksDF) : map snd (iterrows df) = rows df.
Proof.
  unfold iterrows. generalize 0%nat.
  induction (rows df) as [|r l IH]; intros k; simpl; [reflexivity|].
  f_equal. apply IH.
Qed.


(** What [prioritize] returns, when it returns. *)
Lemma prioritize_cases (today : Z) (df : TasksDF) (ordered : list (nat * TaskRow)) :
  prioritize today df = Some ordered ->
  ordered = sort_values (task_leb today) (iterrows df)
  \/ ordered = iterrows df.
Proof.
  unfold prioritize.
  destruct (negb (empty df) && has_Due_Date (columns df)
            && has_Importance (columns df)).
  - destruct (has_Complexity (columns df)); [|discriminate].
    intros [= <-]. left. reflexivity.
  - intros [= <-]. right. reflexivity.
Qed.

Section Formatting.
Variable strftime : Z -> string.
Variable str_num : Q -> string.



(** With a due-date and an importance column but no complexity column,
    [sort_values] raises and the call fails. *)
Lemma missing_Complexity_raises (today : Z) (df : TasksDF)
      (free_time_df : list Window) :
  empty df = false -> free_time_df <> [] ->
  has_Due_Date (columns df) = true ->
  has_Importance (columns df) = true ->
  has_Complexity (columns df) = false ->
  run_scheduler strftime str_num today df free_time_df
  = KeyError "Complexity".
Proof.
  intros E W D I C. unfold run_scheduler, allocation_trace, prioritize.
  rewrite E, D, I, C. destruct free_time_df; [congruence|]. reflexivity.
Qed.



(** *** The walk of the windows *)


Lemma walk_names (name : cell string) (due : cell Z) (windows : list Window) :
  forall rem,
    Forall (fun a => alloc_Task a = name /\ In (alloc_Date a) (map Date windows))
           (fst (fst (walk name due rem windows))).
Proof.
  induction windows as [|w rest IH]; intros rem; cbn [walk].
  - constructor.
  - destruct (num_le0 rem); [constructor|].
    destruct (past_due due w); [constructor|].
    destruct (num_gt (Available_Hours w) 0).
    + specialize (IH (num_sub rem (py_min rem (Available_Hours w)))).
      destruct (walk name due (num_sub rem (py_min rem (Available_Hours w))) rest)
        as [[allocs rest'] rem'].
      cbn [fst] in *. constructor.
      * cbn. auto.
      * eapply Forall_impl; [|exact IH]. cbn. intuition.
    + specialize (IH rem).
      destruct (walk name due rem rest) as [[allocs rest'] rem'].
      cbn [fst] in *. eapply Forall_impl; [|exact IH]. cbn. intuition.
Qed.



(** What one entry of the trace records. *)
Lemma allocate_entries (cols : TaskColumns) (tasks : list (nat * TaskRow)) :
  forall windows,
    Forall (fun t =>
              In (tr_task t) (map snd tasks)
              /\ tr_due t = due_of cols (tr_task t)
              /\ walk (Task (tr_task t)) (tr_due t)
                      (Estimated_Time (tr_task t)) (tr_before t)
                 = (tr_allocs t, tr_after t, tr_remaining t)
              /\ tr_warnings t
                 = shortfall strftime str_num (tr_task t) (tr_due t)
                             (tr_remaining t))
           (fst (allocate strftime str_num cols tasks windows)).
Proof.
  induction tasks as [|[i task] tasks IH]; intros windows; cbn [allocate].
  - constructor.
  - destruct (negb (has_Estimated_Time cols) || negb (has_Task cols)).
    + eapply Forall_impl; [|apply IH]. cbn. intuition.
    + unfold allocate_task.
      destruct (walk (Task task) (due_of cols task) (Estimated_Time task) windows)
        as [[allocs w'] rem] eqn:W.
      specialize (IH w').
      destruct (allocate strftime str_num cols tasks w') as [ts w''].
      cbn [fst] in *. constructor.
      * cbn. auto.
      * eapply Forall_impl; [|exact IH]. cbn. intuition.
Qed.

Lemma prioritize_members (today : Z) (df : TasksDF)
      (ordered : list (nat * TaskRow)) :
  prioritize today df = Some ordered ->
  forall t, In t (map snd ordered) -> In t (rows df).
Proof.
  intros P t H. destruct (prioritize_cases today df ordered P) as [-> | ->].
  - rewrite <- (iterrows_rows df).
    eapply Permutation_in; [|exact H].
    apply Permutation_map. apply sort_values_perm.
  - rewrite <- (iterrows_rows df). exact H.
Qed.

(** The reply of a call that got past the early exit. *)
Lemma run_scheduler_full (today : Z) (df : TasksDF)
      (free_time_df : list Window) (r : Response) :
  run_scheduler strftime str_num today df free_time_df = Ok r ->
  empty df || is_nil free_time_df = false ->
  exists trace final,
    allocation_trace strftime str_num today df free_time_df
    = Some (trace, final)
    /\ scheduledTasks r = flat_map tr_allocs trace
    /\ warnings r
       = (map snd (filter_map (check_large (columns df)) (iterrows df))
          ++ flat_map tr_warnings trace)%list
    /\ largeTasks r
       = map fst (filter_map (check_large (columns df)) (iterrows df)).
Proof.
  unfold run_scheduler. intros R E. rewrite E in R.
  destruct (allocation_trace strftime str_num today df free_time_df)
    as [[trace final]|]; [|discriminate].
  inversion R. subst r. cbn. exists trace, final. auto.
Qed.


(** *** Capacity *)














(** *** The shortfall check *)



(** *** The early exit *)

(** C7.  With no task or no free-time window the call ends at once: one
    warning, nothing scheduled, no large task, and no totals and no
    daily summary in the reply. *)
Theorem C7_early_exit (today : Z) (df : TasksDF)
        (free_time_df : list Window) :
  rows df = [] \/ free_time_df = [] ->
  run_scheduler strftime str_num today df free_time_df
  = Ok {| totalFreeTime := None;
          totalTaskTime := None;
          scheduledTasks := [];
          dailySummary := None;
          warnings :=
            ["No tasks or free time available for scheduling."%string];
          largeTasks := [] |}.
Proof.
  intros [H | H]; unfold run_scheduler.
  - unfold empty. rewrite H. reflexivity.
  - rewrite H. cbn [is_nil]. rewrite orb_true_r. reflexivity.
Qed.

(** *** The large-task check *)







End Formatting.

(** *** The theorems at work on concrete inputs *)

Import Examples.









Lemma C7_witness :
  run_scheduler show_date show_num 10 two_tasks []
  = Ok {| totalFreeTime := None;
          totalTaskTime := None;
          scheduledTasks := [];
          dailySummary := None;
          warnings :=
            ["No tasks or free time available for scheduling."%string];
          largeTasks := [] |}.
Proof.
  apply (C7_early_exit show_date show_num 10 two_tasks []).
  right. reflexivity.
Defined.

End SchedulerProofs.

(** ** The restructurer *)

Module RestructureProofs.

Import Restructure RestructureSpec.

(** *** Labels and positions *)

Lemma nth_combine_seq (l : list TaskRow) (i : nat) :
  forall k,
    nth_error (combine (map Z.of_nat (seq k (List.length l))) l) i
    = option_map (fun t => (Z.of_nat (k + i), t)) (nth_error l i).
Proof.
  revert i. induction l as [|t l IH]; intros i k.
  - destruct i; reflexivity.
  - destruct i as [|i]; cbn [List.length seq map combine nth_error].
    + rewrite Nat.add_0_r. reflexivity.
    + rewrite IH. replace (S k + i)%nat with (k + S i)%nat by lia. reflexivity.
Qed.

Lemma nth_label_rows (l : list TaskRow) (i : nat) :
  nth_error (label_rows l) i
  = option_map (fun t => (Z.of_nat i, t)) (nth_error l i).
Proof. unfold label_rows. apply nth_combine_seq. Qed.

Lemma length_label_rows (l : list TaskRow) :
  List.length (label_rows l) = List.length l.
Proof.
  unfold label_rows.
  rewrite length_combine, length_map, length_seq. apply Nat.min_id.
Qed.

Lemma has_label_iff (k : Z) (l : labelled) :
  has_label k l = true <-> In k (map fst l).
Proof.
  unfold has_label. rewrite existsb_exists, in_map_iff. split.
  - intros [e [Hin He]]. exists e. apply Z.eqb_eq in He. auto.
  - intros [e [He Hin]]. exists e. split; [exact Hin | apply Z.eqb_eq; exact He].
Qed.

Lemma labels_label_rows (l : list TaskRow) :
  map fst (label_rows l) = map Z.of_nat (seq 0 (List.length l)).
Proof.
  unfold label_rows. generalize 0%nat.
  induction l as [|t l IH]; intros k; cbn; [reflexivity|].
  f_equal. apply IH.
Qed.

Lemma has_label_label_rows (k : Z) (l : list TaskRow) :
  has_label k (label_rows l) = true
  <-> (0 <= k < Z.of_nat (List.length l))%Z.
Proof.
  rewrite has_label_iff, labels_label_rows, in_map_iff. split.
  - intros [i [<- Hin]]. apply in_seq in Hin. lia.
  - intros H. exists (Z.to_nat k). split; [lia|]. apply in_seq. lia.
Qed.

Lemma labels_update_label (k : Z) (upd : TaskRow -> TaskRow) (l : labelled) :
  map fst (update_label k upd l) = map fst l.
Proof.
  unfold update_label. rewrite map_map. apply map_ext.
  intro e. destruct (fst e =? k)%Z; reflexivity.
Qed.

Lemma labels_update_all (upd : TaskRow -> TaskRow) (l : labelled) :
  map fst (update_all upd l) = map fst l.
Proof. unfold update_all. rewrite map_map. reflexivity. Qed.

(** Setting a cell at a label the table has changes no label and adds no
    row. *)
Lemma at_set_present (k : Z) (upd : TaskRow -> TaskRow) (l : labelled) :
  In k (map fst l) -> map fst (at_set k upd l) = map fst l.
Proof.
  intro H. unfold at_set.
  apply has_label_iff in H. rewrite H. apply labels_update_label.
Qed.

(** What setting a cell does to the row at a position: the update if the
    row has the label, nothing otherwise (also when a row is appended). *)
Lemma nth_at_set (k : Z) (upd : TaskRow -> TaskRow) (l : labelled)
      (i : nat) (e : Z * TaskRow) :
  nth_error l i = Some e ->
  nth_error (at_set k upd l) i
  = Some (if (fst e =? k)%Z then (fst e, upd (snd e)) else e).
Proof.
  intro H. unfold at_set. destruct (has_label k l) eqn:L.
  - unfold update_label. rewrite nth_error_map, H. reflexivity.
  - rewrite nth_error_app1 by (apply nth_error_Some; congruence).
    rewrite H. f_equal.
    destruct (fst e =? k)%Z eqn:E; [|reflexivity].
    assert (T : has_label k l = true).
    { unfold has_label. apply existsb_exists. exists e.
      split; [eapply nth_error_In; exact H | exact E]. }
    congruence.
Qed.

Lemma nth_update_all (upd : TaskRow -> TaskRow) (l : labelled)
      (i : nat) (e : Z * TaskRow) :
  nth_error l i = Some e ->
  nth_error (update_all upd l) i = Some (fst e, upd (snd e)).
Proof.
  intro H. unfold update_all. rewrite nth_error_map, H. reflexivity.
Qed.

Lemma nth_unlabel (l : labelled) (i : nat) (e : Z * TaskRow) :
  nth_error l i = Some e -> nth_error (unlabel l) i = Some (snd e).
Proof.
  intro H. unfold unlabel. rewrite nth_error_map, H. reflexivity.
Qed.

(** [iloc] at a position that is not negative is the row there. *)
Lemma iloc_nonneg (i : nat) (l : list TaskRow) :
  iloc (Z.of_nat i) l = nth_error l i.
Proof.
  unfold iloc. destruct (Z.leb_spec 0 (Z.of_nat i)); [|lia].
  rewrite Nat2Z.id. reflexivity.
Qed.

(** Dropping the label of a position removes the row there. *)
Lemma filter_labels_above (l : list TaskRow) :
  forall k j, (j < k)%nat ->
    map snd (filter (fun e => negb (fst e =? Z.of_nat j)%Z)
                    (combine (map Z.of_nat (seq k (List.length l))) l))
    = l.
Proof.
  induction l as [|t l IH]; intros k j H; cbn; [reflexivity|].
  destruct (Z.eqb_spec (Z.of_nat k) (Z.of_nat j)); [lia|].
  cbn. f_equal. apply IH. lia.
Qed.

Lemma drop_position (l : list TaskRow) :
  forall k i,
    map snd (filter (fun e => negb (fst e =? Z.of_nat (k + i))%Z)
                    (combine (map Z.of_nat (seq k (List.length l))) l))
    = remove_at i l.
Proof.
  unfold remove_at.
  induction l as [|t l IH]; intros k i.
  - destruct i; reflexivity.
  - cbn [List.length seq map combine filter fst].
    destruct i as [|i].
    + rewrite Nat.add_0_r, Z.eqb_refl. cbn [negb firstn skipn app].
      apply filter_labels_above. lia.
    + destruct (Z.eqb_spec (Z.of_nat k) (Z.of_nat (k + S i))); [lia|].
      cbn [negb map snd firstn skipn]. rewrite <- app_comm_cons. f_equal.
      replace (k + S i)%nat with (S k + i)%nat by lia. apply IH.
Qed.

Lemma drop_label_rows (k : Z) (l : list TaskRow) (kept : labelled) :
  drop k (label_rows l) = Some kept ->
  exists i, k = Z.of_nat i /\ (i < List.length l)%nat
            /\ unlabel kept = remove_at i l.
Proof.
  unfold drop. destruct (has_label k (label_rows l)) eqn:H; [|discriminate].
  intros [= <-]. apply has_label_label_rows in H.
  exists (Z.to_nat k). split; [lia|]. split; [lia|].
  unfold unlabel, label_rows.
  rewrite <- (drop_position l 0 (Z.to_nat k)).
  rewrite Nat.add_0_l, Z2Nat.id by lia. reflexivity.
Qed.

(** *** The dispatch on the approach *)

Lemma dispatch_focus (task_id : Z) (params : Params) (df : TasksDF) :
  breakdown_task task_id "focus" params df
  = guarded task_id df (focus task_id params df).
Proof. reflexivity. Qed.

Lemma dispatch_fixed (task_id : Z) (params : Params) (df : TasksDF) :
  breakdown_task task_id "fixed" params df
  = guarded task_id df (fixed task_id params df).
Proof. reflexivity. Qed.


Lemma dispatch_breakdown (task_id : Z) (params : Params) (df : TasksDF) :
  breakdown_task task_id "breakdown" params df
  = guarded task_id df (breakdown task_id params df).
Proof. reflexivity. Qed.

(** A guarded call that succeeds went through the body, with the task
    [iloc] found and an id below the length. *)
Lemma guarded_success (task_id : Z) (df : TasksDF)
      (body : TaskRow -> outcome) (saved : TasksDF) :
  guarded task_id df body = Success saved ->
  exists task,
    (task_id < Z.of_nat (List.length (rows df)))%Z
    /\ iloc task_id (rows df) = Some task
    /\ body task = Success saved.
Proof.
  unfold guarded.
  destruct (Z.geb_spec task_id (Z.of_nat (List.length (rows df))))
    as [Hge|Hlt]; [discriminate|].
  destruct (iloc task_id (rows df)) as [task|]; [|discriminate].
  destruct (has_Task (columns df)); [|discriminate].
  destruct (has_Estimated_Time (columns df)); [|discriminate].
  cbn [negb]. intro Hb. exists task. auto.
Qed.

(** *** Iterative *)


(** *** Focus and fixed *)

Ltac chase H0 :=
  eapply nth_unlabel;
  repeat first [exact H0 | eapply nth_at_set | eapply nth_update_all].

Lemma id_is_label (task_id : Z) (l : list TaskRow) :
  (0 <= task_id)%Z -> (task_id < Z.of_nat (List.length l))%Z ->
  In task_id (map fst (label_rows l)).
Proof.
  intros. apply has_label_iff. apply has_label_label_rows. lia.
Qed.

Lemma length_unlabel_same (l l0 : labelled) :
  map fst l = map fst l0 -> List.length (unlabel l) = List.length l0.
Proof.
  intro H. unfold unlabel. rewrite length_map.
  rewrite <- (length_map fst l), H. apply length_map.
Qed.

Lemma focus_frame (task_id : Z) (params : Params) (df saved : TasksDF) :
  breakdown_task task_id "focus" params df = Success saved ->
  ((0 <= task_id)%Z -> List.length (rows saved) = List.length (rows df))
  /\ forall i t,
       nth_error (rows df) i = Some t ->
       exists t',
         nth_error (rows saved) i = Some t'
         /\ same_but_name t t'
         /\ Event_Type t' = Event_Type t
         /\ (Z.of_nat i <> task_id ->
             Task t' = Task t
             /\ kept_or_null (has_Focus_Sessions (columns df))
                             (Focus_Sessions t) (Focus_Sessions t')
             /\ kept_or_null (has_Session_Length (columns df))
                             (Session_Length t) (Session_Length t'))
         /\ (Z.of_nat i = task_id ->
             Task t' = (if get_or true (updateName params)
                        then Some (get_or (str (Task t) ++ " [MULTI-SESSION]")%string
                                          (newName params))
                        else Task t)
             /\ Focus_Sessions t' = Some (get_or 0%Z (numSessions params))
             /\ Session_Length t' = Some (get_or 2 (sessionLength params))).
Proof.
  rewrite dispatch_focus. intro H.
  apply guarded_success in H. destruct H as [task [Hlt [Hloc H]]].
  unfold focus in H. inversion H as [Hs]. clear H Hs. cbn [rows]. split.
  - intro Hge. pose proof (id_is_label task_id (rows df) Hge Hlt) as Hin.
    rewrite <- (length_label_rows (rows df)).
    apply length_unlabel_same.
    destruct (get_or true (updateName params)),
             (has_Focus_Sessions (columns df)),
             (has_Session_Length (columns df));
      repeat (rewrite ?at_set_present, ?labels_update_all; trivial).
  - intros i t Hn.
    assert (H0 : nth_error (label_rows (rows df)) i = Some (Z.of_nat i, t))
      by (rewrite nth_label_rows, Hn; reflexivity).
    destruct (Z.eqb_spec (Z.of_nat i) task_id) as [Eid|Nid].
    + assert (task = t).
      { subst task_id. rewrite iloc_nonneg, Hn in Hloc. congruence. }
      subst task.
      apply Z.eqb_eq in Eid.
      destruct (get_or true (updateName params)),
               (has_Focus_Sessions (columns df)),
               (has_Session_Length (columns df));
        (eexists; split; [chase H0|]);
        repeat (cbn [fst snd]; rewrite ?Eid);
        apply Z.eqb_eq in Eid;
        (repeat split; try reflexivity; intros; try contradiction).
    + apply Z.eqb_neq in Nid.
      destruct (get_or true (updateName params)),
               (has_Focus_Sessions (columns df)),
               (has_Session_Length (columns df));
        (eexists; split; [chase H0|]);
        repeat (cbn [fst snd]; rewrite ?Nid);
        apply Z.eqb_neq in Nid;
        (repeat split; try reflexivity; intros; try contradiction).
Qed.

Lemma fixed_frame (task_id : Z) (params : Params) (df saved : TasksDF) :
  breakdown_task task_id "fixed" params df = Success saved ->
  ((0 <= task_id)%Z -> List.length (rows saved) = List.length (rows df))
  /\ forall i t,
       nth_error (rows df) i = Some t ->
       exists t',
         nth_error (rows saved) i = Some t'
         /\ same_but_name t t'
         /\ (Focus_Sessions t' = Focus_Sessions t
             /\ Session_Length t' = Session_Length t)
         /\ (Z.of_nat i <> task_id ->
             Task t' = Task t
             /\ kept_or_null (has_Event_Type (columns df))
                             (Event_Type t) (Event_Type t'))
         /\ (Z.of_nat i = task_id ->
             Task t' = (if get_or true (updateName params)
                        then Some (get_or (str (Task t) ++ " [FIXED EVENT]")%string
                                          (newName params))
                        else Task t)
             /\ Event_Type t' = Some "Fixed Duration"%string).
Proof.
  rewrite dispatch_fixed. intro H.
  apply guarded_success in H. destruct H as [task [Hlt [Hloc H]]].
  unfold fixed in H. inversion H as [Hs]. clear H Hs. cbn [rows]. split.
  - intro Hge. pose proof (id_is_label task_id (rows df) Hge Hlt) as Hin.
    rewrite <- (length_label_rows (rows df)).
    apply length_unlabel_same.
    destruct (get_or true (updateName params)),
             (has_Event_Type (columns df));
      repeat (rewrite ?at_set_present, ?labels_update_all; trivial).
  - intros i t Hn.
    assert (H0 : nth_error (label_rows (rows df)) i = Some (Z.of_nat i, t))
      by (rewrite nth_label_rows, Hn; reflexivity).
    destruct (Z.eqb_spec (Z.of_nat i) task_id) as [Eid|Nid].
    + assert (task = t).
      { subst task_id. rewrite iloc_nonneg, Hn in Hloc. congruence. }
      subst task.
      apply Z.eqb_eq in Eid.
      destruct (get_or true (updateName params)),
               (has_Event_Type (columns df));
        (eexists; split; [chase H0|]);
        repeat (cbn [fst snd]; rewrite ?Eid);
        apply Z.eqb_eq in Eid;
        (repeat split; try reflexivity; intros; try contradiction).
    + apply Z.eqb_neq in Nid.
      destruct (get_or true (updateName params)),
               (has_Event_Type (columns df));
        (eexists; split; [chase H0|]);
        repeat (cbn [fst snd]; rewrite ?Nid);
        apply Z.eqb_neq in Nid;
        (repeat split; try reflexivity; intros; try contradiction).
Qed.


(** *** Validation *)

(** The calls the code does reject: an id at or above the length, an
    approach that is none of the five, a breakdown without subtasks.
    None of them reaches [save_data]. *)
Lemma rejected_calls (task_id : Z) (approach : string) (params : Params)
      (df : TasksDF) :
  ((Z.of_nat (List.length (rows df)) <= task_id)%Z ->
     breakdown_task task_id approach params df
     = Error 404 "Task not found")
  /\ ((0 <= task_id < Z.of_nat (List.length (rows df)))%Z ->
      has_Task (columns df) = true ->
      has_Estimated_Time (columns df) = true ->
      (approach <> "planning" /\ approach <> "breakdown"
       /\ approach <> "focus" /\ approach <> "iterative"
       /\ approach <> "fixed")%string ->
      breakdown_task task_id approach params df
      = Error 400 "Invalid approach")
  /\ ((0 <= task_id < Z.of_nat (List.length (rows df)))%Z ->
      has_Task (columns df) = true ->
      has_Estimated_Time (columns df) = true ->
      subtasks params = [] ->
      breakdown_task task_id "breakdown" params df
      = Error 400 "No subtasks provided")
  /\ ((forall saved, breakdown_task task_id approach params df
                     <> Success saved) ->
      stored_after df (breakdown_task task_id approach params df) = df).
Proof.
  assert (InRange : (0 <= task_id < Z.of_nat (List.length (rows df)))%Z ->
                    exists task, iloc task_id (rows df) = Some task).
  { intro R. replace task_id with (Z.of_nat (Z.to_nat task_id)) by lia.
    rewrite iloc_nonneg.
    destruct (nth_error (rows df) (Z.to_nat task_id)) as [t|] eqn:E; eauto.
    apply nth_error_None in E. lia. }
  repeat split.
  - intro H. unfold breakdown_task.
    destruct (Z.geb_spec task_id (Z.of_nat (List.length (rows df))));
      [reflexivity | lia].
  - intros R Ht He [N1 [N2 [N3 [N4 N5]]]]. unfold breakdown_task.
    destruct (Z.geb_spec task_id (Z.of_nat (List.length (rows df)))); [lia|].
    destruct (InRange R) as [task ->]. rewrite Ht, He. cbn [negb].
    apply String.eqb_neq in N1, N2, N3, N4, N5.
    rewrite N1, N2, N3, N4, N5. reflexivity.
  - intros R Ht He Hs. rewrite dispatch_breakdown. unfold guarded.
    destruct (Z.geb_spec task_id (Z.of_nat (List.length (rows df)))); [lia|].
    destruct (InRange R) as [task ->]. rewrite Ht, He. cbn [negb].
    unfold breakdown. rewrite Hs. reflexivity.
  - intro H. destruct (breakdown_task task_id approach params df) as [s| |];
      [destruct (H s eq_refl) | reflexivity | reflexivity].
Qed.

Import Examples.

(** C8, where the code departs from it.  The range check only looks
    upward: with task id -1 on a table of one task the focus call is not
    rejected.  It succeeds, and what it saves is the old table with one
    more row, empty but for the name and the session fields. *)
Theorem C8_negative_task_id_is_accepted :
  breakdown_task (-1) "focus" no_params stored_one
  = Success
      {| columns :=
           with_Session_Length (with_Focus_Sessions default_columns);
         rows :=
           [ thesis;
             {| Project := None;
                Task := Some "Thesis [MULTI-SESSION]"%string;
                Estimated_Time := None;
                Due_Date := None;
                Importance := None;
                Complexity := None;
                Focus_Sessions := Some 0%Z;
                Session_Length := Some 2;
                Event_Type := None |} ] |}
  /\ rows (stored_after stored_one
             (breakdown_task (-1) "focus" no_params stored_one))
     <> rows stored_one.
Proof.
  split; [reflexivity | discriminate].
Qed.



End RestructureProofs.

(** ** More on the scheduler *)

Module SchedulerMore.

Import Scheduler SchedulerSpec PyFacts SchedulerProofs.

(** *** Windows only lose hours *)

Lemma no_more_refl (w : Window) : no_more w w.
Proof.
  split; [reflexivity|]. intros h' H. exists h'. split; [exact H | lra].
Qed.

Lemma no_more_trans (w1 w2 w3 : Window) :
  no_more w1 w2 -> no_more w2 w3 -> no_more w1 w3.
Proof.
  intros [D12 H12] [D23 H23]. split; [congruence|].
  intros h3 E3. destruct (H23 h3 E3) as [h2 [E2 L23]].
  destruct (H12 h2 E2) as [h1 [E1 L12]]. exists h1. split; [exact E1 | lra].
Qed.

Lemma Forall2_no_more_refl (l : list Window) : Forall2 no_more l l.
Proof. induction l; constructor; [apply no_more_refl | assumption]. Qed.

Lemma Forall2_no_more_trans (l1 l2 l3 : list Window) :
  Forall2 no_more l1 l2 -> Forall2 no_more l2 l3 -> Forall2 no_more l1 l3.
Proof.
  intro H. revert l3. induction H as [|w1 w2 l1 l2 H12 F12 IH]; intros l3 H23.
  - inversion H23. constructor.
  - inversion H23 as [|w2' w3 l2' l3' H23' F23]; subst.
    constructor; [eapply no_more_trans; eassumption | apply IH; exact F23].
Qed.

Lemma Forall2_no_more_dates (l l' : list Window) :
  Forall2 no_more l l' -> map Date l' = map Date l.
Proof.
  induction 1 as [|w w' l l' [D _] F IH]; cbn; [reflexivity|].
  rewrite D, IH. reflexivity.
Qed.

Lemma walk_no_more (name : cell string) (due : cell Z)
      (windows : list Window) :
  forall rem, Forall2 no_more windows (snd (fst (walk name due rem windows))).
Proof.
  induction windows as [|w rest IH]; intros rem; cbn [walk].
  - constructor.
  - destruct (num_le0 rem) eqn:L0; [apply Forall2_no_more_refl|].
    destruct (past_due due w); [apply Forall2_no_more_refl|].
    destruct (num_gt (Available_Hours w) 0) eqn:G.
    + apply num_gt_iff in G. destruct G as [h [Eh Hh]].
      specialize (IH (num_sub rem (py_min rem (Available_Hours w)))).
      destruct (walk name due (num_sub rem (py_min rem (Available_Hours w))) rest)
        as [[allocs rest'] rem'].
      cbn [fst snd] in *. constructor; [|exact IH].
      split; [reflexivity|]. cbn [Available_Hours]. rewrite Eh.
      intros h' E'. exists h. split; [reflexivity|].
      destruct rem as [r|]; [|discriminate].
      apply num_le0_false in L0.
      destruct (py_min_some r h) as [m [Em [Hmr [Hmh Hm]]]].
      rewrite Em in E'. cbn in E'. inversion E'. lra.
    + specialize (IH rem).
      destruct (walk name due rem rest) as [[allocs rest'] rem'].
      cbn [fst snd] in *. constructor; [apply no_more_refl | exact IH].
Qed.

Lemma by_date_no_more (l l' : list Window) :
  Forall2 no_more l l' -> by_date l -> by_date l'.
Proof.
  intros F S. unfold by_date in *.
  rewrite (Forall2_no_more_dates l l' F). exact S.
Qed.

Lemma working_free_time_by_date (free_time_df : list Window) :
  by_date (working_free_time free_time_df).
Proof.
  unfold by_date, working_free_time.
  assert (S : StronglySorted (le_of window_leb)
                             (sort_values window_leb free_time_df)).
  { apply sort_values_sorted.
    - intros a b. unfold window_leb.
      destruct (Z.leb_spec (Date a) (Date b)); [left; reflexivity|].
      right. apply Z.leb_le. lia.
    - intros a b c. unfold window_leb. rewrite !Z.leb_le. lia. }
  induction S as [|w l S IH F]; cbn; constructor; [exact IH|].
  apply Forall_map. eapply Forall_impl; [|exact F].
  intros w' H. unfold le_of, window_leb in H. apply Z.leb_le. exact H.
Qed.

(** *** One walk *)

(** A walk takes no more than the task needs: what remains of a duration
    that is not negative lies between zero and that duration. *)
Lemma walk_remaining (name : cell string) (due : cell Z)
      (windows : list Window) :
  forall e allocs windows' rem',
    walk name due (Some e) windows = (allocs, windows', rem') ->
    0 <= e ->
    exists rem, rem' = Some rem /\ 0 <= rem /\ rem <= e.
Proof.
  induction windows as [|w rest IH]; intros e allocs windows' rem' W He;
    cbn [walk] in W.
  - inversion W. exists e. repeat split; lra.
  - destruct (num_le0 (Some e)) eqn:L0.
    { inversion W. exists e. repeat split; lra. }
    destruct (past_due due w).
    { inversion W. exists e. repeat split; lra. }
    destruct (num_gt (Available_Hours w) 0) eqn:G.
    + apply num_gt_iff in G. destruct G as [h [Eh Hh]]. rewrite Eh in W.
      destruct (py_min_some e h) as [m [Em [Hme [Hmh Hm]]]]. rewrite Em in W.
      cbn [num_sub] in W.
      destruct (walk name due (Some (e - m)) rest)
        as [[allocs0 rest'] rem0] eqn:W0.
      inversion W. subst rem'.
      apply num_le0_false in L0.
      destruct (IH _ _ _ _ W0) as [rem [-> [Hlo Hhi]]]; [lra|].
      exists rem. repeat split; lra.
    + destruct (walk name due (Some e) rest) as [[allocs0 rest'] rem0] eqn:W0.
      inversion W. subst rem'. apply (IH _ _ _ _ W0 He).
Qed.


(** If a walk over windows in date order leaves work undone, it leaves no
    hours in any window within reach of the due date. *)
Lemma walk_exhausts (name : cell string) (due : cell Z)
      (windows : list Window) :
  forall rem allocs windows' rem0,
    walk name due rem windows = (allocs, windows', Some rem0) ->
    by_date windows -> 0 < rem0 ->
    Forall (fun w => in_reach due w -> ~ open_window w) windows'.
Proof.
  induction windows as [|w rest IH]; intros rem allocs windows' rem0 W S Hr;
    cbn [walk] in W.
  - inversion W. constructor.
  - destruct (num_le0 rem) eqn:L0.
    { inversion W. subst. apply Qle_bool_iff in L0. lra. }
    unfold by_date in S. cbn [map] in S.
    inversion S as [|d0 l0 Srest Fw]; subst.
    destruct (past_due due w) eqn:P.
    { inversion W. subst. clear W.
      destruct due as [d|]; [|discriminate]. cbn in P.
      assert (Hd : (d < Date w)%Z)
        by (destruct (Z.gtb_spec (Date w) d); [lia | discriminate]).
      apply Forall_forall. intros w' Hin Reach.
      specialize (Reach d eq_refl).
      destruct Hin as [<- | Hin]; [lia|].
      rewrite Forall_forall in Fw.
      specialize (Fw (Date w') (in_map Date rest w' Hin)). lia. }
    destruct (num_gt (Available_Hours w) 0) eqn:G.
    + apply num_gt_iff in G. destruct G as [h [Eh Hh]]. rewrite Eh in W.
      destruct rem as [e|].
      * apply num_le0_false in L0.
        destruct (py_min_some e h) as [m [Em [Hme [Hmh Hm]]]].
        rewrite Em in W. cbn [num_sub] in W.
        destruct (walk name due (Some (e - m)) rest)
          as [[allocs0 rest'] rem1] eqn:W0.
        inversion W. subst allocs windows' rem1. clear W.
        destruct (walk_remaining name due rest _ _ _ _ W0)
          as [r [Er [Hlo Hhi]]]; [lra|].
        inversion Er. subst r.
        constructor; [|apply (IH _ _ _ _ W0 Srest Hr)].
        intros _ [h' [E' Hh']]. cbn in E'. inversion E'. subst h'.
        destruct Hm; lra.
      * cbn [py_min num_sub] in W.
        destruct (walk name due None rest) as [[allocs0 rest'] rem1] eqn:W0.
        inversion W. subst allocs windows' rem1. clear W.
        constructor; [|apply (IH _ _ _ _ W0 Srest Hr)].
        intros _ [h' [E' _]]. cbn in E'. discriminate.
    + destruct (walk name due rem rest) as [[allocs0 rest'] rem1] eqn:W0.
      inversion W. subst allocs windows' rem1. clear W.
      constructor; [|apply (IH _ _ _ _ W0 Srest Hr)].
      intros _ [h' [E' Hh']].
      assert (T : num_gt (Available_Hours w) 0 = true)
        by (apply num_gt_iff; eauto).
      congruence.
Qed.

(** Over windows in date order the allocations of a walk are in date
    order. *)
Lemma walk_chronological (name : cell string) (due : cell Z)
      (windows : list Window) :
  forall rem,
    by_date windows ->
    StronglySorted Z.le
      (map alloc_Date (fst (fst (walk name due rem windows)))).
Proof.
  induction windows as [|w rest IH]; intros rem S; cbn [walk].
  - constructor.
  - destruct (num_le0 rem); [constructor|].
    destruct (past_due due w); [constructor|].
    unfold by_date in S. cbn [map] in S.
    inversion S as [|d0 l0 Srest Fw]; subst.
    destruct (num_gt (Available_Hours w) 0).
    + pose proof (walk_names name due rest
                    (num_sub rem (py_min rem (Available_Hours w)))) as N.
      specialize (IH (num_sub rem (py_min rem (Available_Hours w))) Srest).
      destruct (walk name due (num_sub rem (py_min rem (Available_Hours w))) rest)
        as [[allocs rest'] rem'].
      cbn [fst map alloc_Date] in *. constructor; [exact IH|].
      apply Forall_map. eapply Forall_impl; [|exact N].
      intros a [_ Hin]. rewrite Forall_forall in Fw. apply Fw. exact Hin.
    + specialize (IH rem Srest).
      destruct (walk name due rem rest) as [[allocs rest'] rem'].
      exact IH.
Qed.

(** *** The walks of one call *)

Section Formatting.
Variable strftime : Z -> string.
Variable str_num : Q -> string.

(** Each walk of the loop starts from windows in date order and hands on
    windows that only lost hours. *)
Lemma allocate_windows (cols : TaskColumns) (tasks : list (nat * TaskRow)) :
  forall windows,
    by_date windows ->
    Forall (fun t => by_date (tr_before t)
                     /\ Forall2 no_more windows (tr_before t)
                     /\ Forall2 no_more (tr_before t) (tr_after t))
           (fst (allocate strftime str_num cols tasks windows))
    /\ Forall2 no_more windows
               (snd (allocate strftime str_num cols tasks windows)).
Proof.
  induction tasks as [|[i task] tasks IH]; intros windows S; cbn [allocate].
  - split; [constructor | apply Forall2_no_more_refl].
  - destruct (negb (has_Estimated_Time cols) || negb (has_Task cols)).
    + apply IH. exact S.
    + unfold allocate_task.
      pose proof (walk_no_more (Task task) (due_of cols task) windows
                    (Estimated_Time task)) as N.
      destruct (walk (Task task) (due_of cols task) (Estimated_Time task) windows)
        as [[allocs w'] rem].
      cbn [fst snd] in N.
      destruct (IH w' (by_date_no_more windows w' N S)) as [F L].
      destruct (allocate strftime str_num cols tasks w') as [ts w''].
      cbn [fst snd] in *. split.
      * constructor.
        -- cbn. repeat split; [exact S | apply Forall2_no_more_refl | exact N].
        -- eapply Forall_impl; [|exact F].
           intros t [H1 [H2 H3]]. repeat split; trivial.
           eapply Forall2_no_more_trans; eassumption.
      * eapply Forall2_no_more_trans; eassumption.
Qed.

(** The walks of a call: what [allocate_entries] and [allocate_windows]
    say of the trace of [allocation_trace]. *)
Lemma trace_entries (today : Z) (df : TasksDF) (free_time_df : list Window)
      (trace : list TaskTrace) (final : list Window) :
  allocation_trace strftime str_num today df free_time_df
  = Some (trace, final) ->
  Forall2 no_more (working_free_time free_time_df) final
  /\ Forall (fun t =>
       In (tr_task t) (rows df)
       /\ walk (Task (tr_task t)) (tr_due t)
               (Estimated_Time (tr_task t)) (tr_before t)
          = (tr_allocs t, tr_after t, tr_remaining t)
       /\ by_date (tr_before t)
       /\ Forall2 no_more (working_free_time free_time_df) (tr_before t))
     trace.
Proof.
  unfold allocation_trace. intro A.
  destruct (prioritize today df) as [ordered|] eqn:P; [|discriminate].
  inversion A as [A'].
  pose proof (allocate_entries strftime str_num (columns df) ordered
                (working_free_time free_time_df)) as En.
  destruct (allocate_windows (columns df) ordered
              (working_free_time free_time_df)
              (working_free_time_by_date free_time_df)) as [Wn Fin].
  rewrite A' in En, Wn, Fin. cbn [fst snd] in *.
  split; [exact Fin|].
  rewrite Forall_forall in *. intros t Ht.
  destruct (En t Ht) as [Hin [_ [Hwalk _]]].
  destruct (Wn t Ht) as [Hs [Hb _]].
  repeat split; trivial.
  eapply prioritize_members; eassumption.
Qed.


(** Work is left undone only when nothing is left to give.  If a task
    ends its walk with a positive remainder, no window within reach of its
    due date (no window at all, for a task without a due date) has hours
    left; in particular this holds whenever the task gets a warning. *)
Theorem leftover_means_windows_used_up (today : Z) (df : TasksDF)
        (free_time_df : list Window) (trace : list TaskTrace)
        (final : list Window) :
  allocation_trace strftime str_num today df free_time_df
  = Some (trace, final) ->
  Forall (fun t =>
    ((exists rem, tr_remaining t = Some rem /\ 0 < rem)
     \/ tr_warnings t <> []) ->
    Forall (fun w => in_reach (tr_due t) w -> ~ open_window w) (tr_after t))
    trace.
Proof.
  intro A. destruct (trace_entries today df free_time_df trace final A)
    as [_ En].
  assert (Wn : Forall (fun t =>
                 tr_warnings t
                 = shortfall strftime str_num (tr_task t) (tr_due t)
                             (tr_remaining t)) trace).
  { unfold allocation_trace in A.
    destruct (prioritize today df) as [ordered|]; [|discriminate].
    inversion A as [A'].
    pose proof (allocate_entries strftime str_num (columns df) ordered
                  (working_free_time free_time_df)) as H.
    rewrite A' in H. cbn [fst] in H.
    eapply Forall_impl; [|exact H]. intros t H'. apply H'. }
  rewrite Forall_forall in *. intros t Ht Left.
  destruct (En t Ht) as [_ [Hwalk [Hs _]]].
  assert (Pos : exists rem, tr_remaining t = Some rem /\ 0 < rem).
  { destruct Left as [Pos | Warn]; [exact Pos|].
    rewrite (Wn t Ht) in Warn. unfold shortfall in Warn.
    destruct (tr_due t); [|congruence].
    destruct (num_gt (tr_remaining t) 0) eqn:G; [|congruence].
    apply num_gt_iff in G. exact G. }
  destruct Pos as [rem [Hr Hpos]]. rewrite Hr in Hwalk.
  eapply walk_exhausts; eassumption.
Qed.

(** Allocation only takes hours away.  The windows after the call are the
    input windows put in date order, each with its date and, where its
    hours are a number, no more hours than it came with. *)
Theorem windows_only_lose_hours (today : Z) (df : TasksDF)
        (free_time_df : list Window) (trace : list TaskTrace)
        (final : list Window) :
  allocation_trace strftime str_num today df free_time_df
  = Some (trace, final) ->
  exists sorted,
    Permutation sorted free_time_df
    /\ by_date sorted
    /\ Forall2 no_more sorted final
    /\ List.length final = List.length free_time_df.
Proof.
  intro A. destruct (trace_entries today df free_time_df trace final A)
    as [Fin _].
  exists (working_free_time free_time_df).
  split; [apply sort_values_perm|].
  split; [apply working_free_time_by_date|].
  split; [exact Fin|].
  rewrite <- (Permutation_length (sort_values_perm window_leb free_time_df)).
  symmetry. eapply Forall2_length. exact Fin.
Qed.

(** The allocations of one task come in date order, and each is dated as
    one of the free-time windows. *)
Theorem allocations_are_chronological (today : Z) (df : TasksDF)
        (free_time_df : list Window) (trace : list TaskTrace)
        (final : list Window) :
  allocation_trace strftime str_num today df free_time_df
  = Some (trace, final) ->
  Forall (fun t =>
    StronglySorted Z.le (map alloc_Date (tr_allocs t))
    /\ Forall (fun a => In (alloc_Date a) (map Date free_time_df))
              (tr_allocs t))
    trace.
Proof.
  intro A. destruct (trace_entries today df free_time_df trace final A)
    as [_ En].
  eapply Forall_impl; [|exact En].
  intros t [_ [Hwalk [Hs Hb]]]. split.
  - pose proof (walk_chronological (Task (tr_task t)) (tr_due t) (tr_before t)
                  (Estimated_Time (tr_task t)) Hs) as C.
    rewrite Hwalk in C. exact C.
  - pose proof (walk_names (Task (tr_task t)) (tr_due t) (tr_before t)
                  (Estimated_Time (tr_task t))) as N.
    rewrite Hwalk in N. cbn [fst] in N.
    eapply Forall_impl; [|exact N]. intros a [_ Hin].
    rewrite (Forall2_no_more_dates _ _ Hb) in Hin.
    eapply Permutation_in; [|exact Hin].
    apply Permutation_map. apply sort_values_perm.
Qed.

End Formatting.

(** *** The daily summary *)

Lemma In_group_keys (d : Z) (dates : list Z) :
  In d (group_keys dates) <-> In d dates.
Proof.
  induction dates as [|x dates IH]; cbn [group_keys In]; [tauto|].
  rewrite filter_In, IH, negb_true_iff, Z.eqb_neq.
  destruct (Z.eq_dec x d); intuition.
Qed.


Lemma StronglySorted_filter_lt (f : Z -> bool) (l : list Z) :
  StronglySorted Z.lt l -> StronglySorted Z.lt (filter f l).
Proof.
  induction 1 as [|x l S IH F]; cbn [filter]; [constructor|].
  destruct (f x); [|exact IH].
  constructor; [exact IH|].
  rewrite Forall_forall in *. intros y Hy. apply filter_In in Hy.
  apply F. apply Hy.
Qed.

Lemma group_keys_ascending (dates : list Z) :
  StronglySorted Z.le dates -> StronglySorted Z.lt (group_keys dates).
Proof.
  induction 1 as [|x dates S IH F]; cbn [group_keys]; constructor.
  - apply StronglySorted_filter_lt. exact IH.
  - rewrite Forall_forall in *. intros y Hy. apply filter_In in Hy.
    destruct Hy as [Hin Hne]. apply (proj1 (In_group_keys y dates)) in Hin.
    apply negb_true_iff, Z.eqb_neq in Hne. specialize (F y Hin). lia.
Qed.


Lemma add_scheduled_dates (d : Z) (h : cell Q)
      (summary : list DailySummaryEntry) :
  map ds_Date (add_scheduled d h summary) = map ds_Date summary.
Proof.
  induction summary as [|s summary IH]; cbn [add_scheduled map];
    [reflexivity|].
  destruct (ds_Date s =? d)%Z; cbn [map ds_Date]; [reflexivity|].
  rewrite IH. reflexivity.
Qed.


(** *** Conservation of hours *)









Section Conservation.
Variable strftime : Z -> string.
Variable str_num : Q -> string.



End Conservation.

(** *** The reply of a full call *)


Lemma daily_summary_dates (windows : list Window) (allocs : list Allocation) :
  map ds_Date (daily_summary windows allocs) = group_keys (map Date windows).
Proof.
  unfold daily_summary.
  assert (Init : map ds_Date (summary_init windows)
                 = group_keys (map Date windows)).
  { unfold summary_init. rewrite map_map. cbn [ds_Date]. apply map_id. }
  rewrite <- Init. generalize (summary_init windows).
  induction allocs as [|a allocs IH]; intros summary; cbn [fold_left];
    [reflexivity|].
  rewrite IH. apply add_scheduled_dates.
Qed.


Section Reply.
Variable strftime : Z -> string.
Variable str_num : Q -> string.

(** With no duration column or no name column every task is skipped. *)
Lemma allocate_skipped (cols : TaskColumns) (tasks : list (nat * TaskRow))
      (windows : list Window) :
  not_skipped cols = false ->
  allocate strftime str_num cols tasks windows = ([], windows).
Proof.
  unfold not_skipped. intro N.
  assert (S : negb (has_Estimated_Time cols) || negb (has_Task cols) = true).
  { destruct (has_Estimated_Time cols), (has_Task cols);
      try reflexivity; discriminate. }
  induction tasks as [|[i task] tasks IH]; cbn [allocate]; [reflexivity|].
  rewrite S. exact IH.
Qed.

(** The reply of a call that does not end at the early exit, field by
    field. *)
Lemma run_scheduler_reply (today : Z) (df : TasksDF)
      (free_time_df : list Window) (r : Response) :
  run_scheduler strftime str_num today df free_time_df = Ok r ->
  empty df || is_nil free_time_df = false ->
  exists trace final,
    allocation_trace strftime str_num today df free_time_df
    = Some (trace, final)
    /\ totalFreeTime r
       = Some (nansum (map Available_Hours (working_free_time free_time_df)))
    /\ totalTaskTime r
       = Some (if has_Estimated_Time (columns df)
               then nansum (map Estimated_Time (rows df)) else 0)
    /\ scheduledTasks r = flat_map tr_allocs trace
    /\ dailySummary r
       = Some (daily_summary final (flat_map tr_allocs trace)).
Proof.
  unfold run_scheduler. intros R E. rewrite E in R.
  destruct (allocation_trace strftime str_num today df free_time_df)
    as [[trace final]|]; [|discriminate].
  inversion R. subst r. cbn. exists trace, final. auto.
Qed.

(** A reply that has a field the early exit leaves out comes from a full
    call. *)
Lemma full_call (today : Z) (df : TasksDF) (free_time_df : list Window)
      (r : Response) :
  run_scheduler strftime str_num today df free_time_df = Ok r ->
  dailySummary r <> None \/ totalFreeTime r <> None
  \/ totalTaskTime r <> None ->
  empty df || is_nil free_time_df = false.
Proof.
  unfold run_scheduler. intros R H.
  destruct (empty df || is_nil free_time_df); [|reflexivity].
  inversion R. subst r. cbn in H. intuition congruence.
Qed.

(** The daily summary has one entry for each date that has a free-time
    window, in ascending order of date. *)
Theorem summary_has_each_date_once (today : Z) (df : TasksDF)
        (free_time_df : list Window) (r : Response)
        (summary : list DailySummaryEntry) :
  run_scheduler strftime str_num today df free_time_df = Ok r ->
  dailySummary r = Some summary ->
  StronglySorted Z.lt (map ds_Date summary)
  /\ forall d, In d (map ds_Date summary) <-> In d (map Date free_time_df).
Proof.
  intros R S.
  assert (E : empty df || is_nil free_time_df = false).
  { apply (full_call today df free_time_df r R). left. congruence. }
  destruct (run_scheduler_reply today df free_time_df r R E)
    as [trace [final [A [_ [_ [_ D]]]]]].
  rewrite S in D. inversion D as [D']. clear D.
  destruct (trace_entries strftime str_num today df free_time_df trace final A)
    as [Fin _].
  rewrite daily_summary_dates, (Forall2_no_more_dates _ _ Fin). split.
  - apply group_keys_ascending. apply working_free_time_by_date.
  - intro d. rewrite In_group_keys. split; intro H.
    + eapply Permutation_in; [|exact H].
      apply Permutation_map. apply sort_values_perm.
    + eapply Permutation_in; [|exact H].
      apply Permutation_map. apply Permutation_sym. apply sort_values_perm.
Qed.





Lemma check_large_skipped (cols : TaskColumns) (l : list (nat * TaskRow)) :
  not_skipped cols = false -> filter_map (check_large cols) l = [].
Proof.
  unfold not_skipped. intro Ns.
  induction l as [|[i task] l IH]; [reflexivity|].
  cbn [filter_map check_large].
  destruct (has_Estimated_Time cols), (has_Task cols);
    try discriminate; exact IH.
Qed.

(** A table without a duration column or without a name column is
    scheduled in silence: the call allocates nothing, flags nothing and
    warns of nothing, and the windows keep their hours. *)
Theorem missing_columns_schedule_nothing (today : Z) (df : TasksDF)
        (free_time_df : list Window) (r : Response) :
  run_scheduler strftime str_num today df free_time_df = Ok r ->
  empty df || is_nil free_time_df = false ->
  not_skipped (columns df) = false ->
  scheduledTasks r = [] /\ warnings r = [] /\ largeTasks r = []
  /\ allocation_trace strftime str_num today df free_time_df
     = Some ([], working_free_time free_time_df).
Proof.
  intros R E Ns.
  destruct (run_scheduler_full strftime str_num today df free_time_df r R E)
    as [trace [final [A [S [W L]]]]].
  assert (T : trace = [] /\ final = working_free_time free_time_df).
  { unfold allocation_trace in A.
    destruct (prioritize today df) as [ordered|]; [|discriminate].
    rewrite (allocate_skipped (columns df) ordered _ Ns) in A.
    inversion A. auto. }
  destruct T as [-> ->].
  rewrite (check_large_skipped (columns df) (iterrows df) Ns) in W, L.
  repeat split; assumption.
Qed.


(** The reply is the early one, without totals, exactly when the task
    table is empty (no row, or rows without any field) or there is no
    window. *)
Theorem early_exit_exactly_when_empty (today : Z) (df : TasksDF)
        (free_time_df : list Window) (r : Response) :
  run_scheduler strftime str_num today df free_time_df = Ok r ->
  (totalFreeTime r = None <-> empty df = true \/ free_time_df = [])
  /\ (totalFreeTime r = None ->
      r = {| totalFreeTime := None;
             totalTaskTime := None;
             scheduledTasks := [];
             dailySummary := None;
             warnings :=
               ["No tasks or free time available for scheduling."%string];
             largeTasks := [] |}).
Proof.
  intro R. destruct (empty df || is_nil free_time_df) eqn:E.
  - assert (Hr : r = {| totalFreeTime := None;
                         totalTaskTime := None;
                         scheduledTasks := [];
                         dailySummary := None;
                         warnings := [no_work_warning];
                         largeTasks := [] |}).
    { unfold run_scheduler in R. rewrite E in R. inversion R. reflexivity. }
    split; [|intros _; exact Hr].
    split; [intros _ | intros _; rewrite Hr; reflexivity].
    apply orb_true_iff in E. destruct E as [E | E]; [left; exact E|].
    right. destruct free_time_df; [reflexivity | discriminate].
  - destruct (run_scheduler_reply today df free_time_df r R E)
      as [trace [final [_ [Fr _]]]].
    split; [|intro H; congruence].
    split; [intro H; congruence|].
    apply orb_false_iff in E. destruct E as [E1 E2].
    intros [H | H]; [congruence|]. subst. discriminate.
Qed.


End Reply.

(** *** Tasks past due and tasks without a duration *)



Section Edge.
Variable strftime : Z -> string.
Variable str_num : Q -> string.




End Edge.

(** *** The theorems at work on concrete inputs *)

Import Examples.


Lemma leftover_means_windows_used_up_witness :
  exists trace final,
    allocation_trace show_date show_num 10 two_tasks three_windows
    = Some (trace, final)
    /\ Forall (fun t =>
         ((exists rem, tr_remaining t = Some rem /\ 0 < rem)
          \/ tr_warnings t <> []) ->
         Forall (fun w => in_reach (tr_due t) w -> ~ open_window w)
                (tr_after t))
         trace.
Proof.
  eexists. eexists. split; [reflexivity|].
  eapply (leftover_means_windows_used_up
            show_date show_num 10 two_tasks three_windows).
  reflexivity.
Defined.

Lemma windows_only_lose_hours_witness :
  exists trace final,
    allocation_trace show_date show_num 10 two_tasks three_windows
    = Some (trace, final)
    /\ exists sorted,
         Permutation sorted three_windows
         /\ by_date sorted
         /\ Forall2 no_more sorted final
         /\ List.length final = List.length three_windows.
Proof.
  eexists. eexists. split; [reflexivity|].
  eapply (windows_only_lose_hours
            show_date show_num 10 two_tasks three_windows).
  reflexivity.
Defined.

Lemma allocations_are_chronological_witness :
  exists trace final,
    allocation_trace show_date show_num 10 two_tasks three_windows
    = Some (trace, final)
    /\ Forall (fun t =>
         StronglySorted Z.le (map alloc_Date (tr_allocs t))
         /\ Forall (fun a => In (alloc_Date a) (map Date three_windows))
                   (tr_allocs t))
         trace.
Proof.
  eexists. eexists. split; [reflexivity|].
  eapply (allocations_are_chronological
            show_date show_num 10 two_tasks three_windows).
  reflexivity.
Defined.

Lemma summary_has_each_date_once_witness :
  exists r summary,
    run_scheduler show_date show_num 10 two_tasks three_windows = Ok r
    /\ dailySummary r = Some summary
    /\ StronglySorted Z.lt (map ds_Date summary)
    /\ forall d, In d (map ds_Date summary) <-> In d (map Date three_windows).
Proof.
  eexists. eexists. split; [reflexivity|]. split; [reflexivity|].
  eapply (summary_has_each_date_once
            show_date show_num 10 two_tasks three_windows);
    reflexivity.
Defined.




Lemma missing_columns_schedule_nothing_witness :
  exists r,
    run_scheduler show_date show_num 10 no_name_column three_windows = Ok r
    /\ empty no_name_column || is_nil three_windows = false
    /\ not_skipped (columns no_name_column) = false
    /\ scheduledTasks r = [] /\ warnings r = [] /\ largeTasks r = [].
Proof.
  eexists. split; [reflexivity|]. split; [reflexivity|].
  split; [reflexivity|].
  destruct (missing_columns_schedule_nothing
              show_date show_num 10 no_name_column three_windows _
              eq_refl eq_refl eq_refl)
    as (H0 & H1 & H2 & _).
  repeat split; assumption.
Defined.

Lemma early_exit_exactly_when_empty_witness :
  exists r,
    run_scheduler show_date show_num 10 two_tasks [] = Ok r
    /\ (totalFreeTime r = None <-> empty two_tasks = true \/ @nil Window = []).
Proof.
  eexists. split; [reflexivity|].
  exact (proj1 (early_exit_exactly_when_empty
                  show_date show_num 10 two_tasks [] _ eq_refl)).
Defined.




End SchedulerMore.

(** ** More on the restructurer *)

Module RestructureMore.

Import Restructure RestructureSpec RestructureProofs.

(** *** Which calls are accepted *)

Lemma dispatch_planning (task_id : Z) (params : Params) (df : TasksDF) :
  breakdown_task task_id "planning" params df
  = guarded task_id df (planning task_id params df).
Proof. reflexivity. Qed.

(** [iloc] finds a row exactly for the positions from minus the length up
    to the length, the length left out. *)
Lemma iloc_in_range (i : Z) (l : list TaskRow) :
  (exists t, iloc i l = Some t)
  <-> (- Z.of_nat (List.length l) <= i < Z.of_nat (List.length l))%Z.
Proof.
  unfold iloc. destruct (Z.leb_spec 0 i) as [H0|H0].
  - split.
    + intros [t Ht].
      assert (Z.to_nat i < List.length l)%nat
        by (apply nth_error_Some; congruence).
      lia.
    + intros [_ H]. destruct (nth_error l (Z.to_nat i)) as [t|] eqn:E; eauto.
      apply nth_error_None in E. lia.
  - destruct (Z.leb_spec 0 (Z.of_nat (List.length l) + i)) as [H1|H1].
    + split; [intros _; lia|]. intros _.
      destruct (nth_error l (Z.to_nat (Z.of_nat (List.length l) + i)))
        as [t|] eqn:E; eauto.
      apply nth_error_None in E. lia.
    + split; [intros [t Ht]; discriminate | lia].
Qed.

Lemma drop_in_range (k : Z) (l : list TaskRow) :
  (exists kept, drop k (label_rows l) = Some kept)
  <-> (0 <= k < Z.of_nat (List.length l))%Z.
Proof.
  unfold drop. rewrite <- has_label_label_rows.
  destruct (has_label k (label_rows l)); split; eauto;
    [intros [kept H]; discriminate | discriminate].
Qed.

(** What the guard lets through. *)
Lemma guarded_cases (task_id : Z) (df : TasksDF) (body : TaskRow -> outcome) :
  let n := Z.of_nat (List.length (rows df)) in
  ((n <= task_id)%Z /\ guarded task_id df body = Error 404 "Task not found")
  \/ ((task_id < - n)%Z /\ guarded task_id df body = Raised IndexError)
  \/ ((- n <= task_id < n)%Z /\ has_Task (columns df) = false
      /\ guarded task_id df body = Raised (KeyError "Task"))
  \/ ((- n <= task_id < n)%Z /\ has_Task (columns df) = true
      /\ has_Estimated_Time (columns df) = false
      /\ guarded task_id df body = Raised (KeyError "Estimated Time"))
  \/ ((- n <= task_id < n)%Z /\ has_Task (columns df) = true
      /\ has_Estimated_Time (columns df) = true
      /\ exists task, iloc task_id (rows df) = Some task
                      /\ guarded task_id df body = body task).
Proof.
  intro n. unfold guarded. fold n.
  destruct (Z.geb_spec task_id n) as [Hge|Hlt]; [left; split; [lia | reflexivity]|].
  right.
  destruct (iloc task_id (rows df)) as [task|] eqn:E.
  - assert (R : (- n <= task_id < n)%Z) by (apply iloc_in_range; eauto).
    right.
    destruct (has_Task (columns df)); cbn [negb];
      [|left; auto].
    right.
    destruct (has_Estimated_Time (columns df)); cbn [negb];
      [|left; auto].
    right. repeat split; try lia. eauto.
  - left. split; [|reflexivity].
    destruct (Z_lt_le_dec task_id (- n)) as [H|H]; [exact H|].
    assert (X : exists t, iloc task_id (rows df) = Some t)
      by (apply iloc_in_range; fold n; lia).
    destruct X as [t Ht]. congruence.
Qed.

Lemma dispatch (task_id : Z) (approach : string) (params : Params)
      (df : TasksDF) :
  breakdown_task task_id approach params df
  = guarded task_id df
      (fun task =>
         if (approach =? "planning")%string
         then planning task_id params df task
         else if (approach =? "breakdown")%string
         then breakdown task_id params df task
         else if (approach =? "focus")%string
         then focus task_id params df task
         else if (approach =? "iterative")%string
         then iterative task_id params df task
         else if (approach =? "fixed")%string
         then fixed task_id params df task
         else Error 400 "Invalid approach").
Proof. reflexivity. Qed.

(** The result of each approach, as far as success goes. *)
Lemma approach_succeeds (task_id : Z) (params : Params) (df : TasksDF)
      (task : TaskRow) :
  (exists s, planning task_id params df task = Success s)
  /\ (exists s, focus task_id params df task = Success s)
  /\ (exists s, fixed task_id params df task = Success s)
  /\ ((exists s, iterative task_id params df task = Success s)
      <-> (0 <= task_id < Z.of_nat (List.length (rows df)))%Z)
  /\ ((exists s, breakdown task_id params df task = Success s)
      <-> (0 <= task_id < Z.of_nat (List.length (rows df)))%Z
          /\ subtasks params <> []).
Proof.
  split; [unfold planning; eauto|].
  split; [unfold focus; eauto|].
  split; [unfold fixed; eauto|].
  split.
  - rewrite <- drop_in_range. unfold iterative.
    destruct (drop task_id (label_rows (rows df))); split; eauto;
      [intros [s H]; discriminate | intros [k H]; discriminate].
  - rewrite <- drop_in_range. unfold breakdown.
    destruct (subtasks params) as [|s0 l].
    + split; [intros [s H]; discriminate | intros [_ H]; congruence].
    + destruct (drop task_id (label_rows (rows df))); split; eauto.
      * intros _. split; [eauto | discriminate].
      * intros [s H]. discriminate.
      * intros [[k H] _]. discriminate.
Qed.

(** When a call is accepted.  The call succeeds, and saves, exactly when
    the task id is below the length and not below minus the length, the
    table has its name and duration columns, and the approach is planning,
    focus or fixed, or is iterative with an id that is not negative, or is
    breakdown with an id that is not negative and at least one subtask. *)
Theorem accepted_calls (task_id : Z) (approach : string) (params : Params)
        (df : TasksDF) :
  (exists saved, breakdown_task task_id approach params df = Success saved)
  <-> ((- Z.of_nat (List.length (rows df)) <= task_id
        < Z.of_nat (List.length (rows df)))%Z
       /\ has_Task (columns df) = true
       /\ has_Estimated_Time (columns df) = true
       /\ (approach = "planning" \/ approach = "focus" \/ approach = "fixed"
           \/ (approach = "iterative" /\ (0 <= task_id)%Z)
           \/ (approach = "breakdown" /\ (0 <= task_id)%Z
               /\ subtasks params <> []))%string).
Proof.
  rewrite dispatch.
  destruct (guarded_cases task_id df
              (fun task =>
                 if (approach =? "planning")%string
                 then planning task_id params df task
                 else if (approach =? "breakdown")%string
                 then breakdown task_id params df task
                 else if (approach =? "focus")%string
                 then focus task_id params df task
                 else if (approach =? "iterative")%string
                 then iterative task_id params df task
                 else if (approach =? "fixed")%string
                 then fixed task_id params df task
                 else Error 400 "Invalid approach"))
    as [[R ->] | [[R ->] | [[R [T ->]] | [[R [T [E ->]]] | [R [T [E [task [_ ->]]]]]]]]].
  - split; [intros [s H]; discriminate | lia].
  - split; [intros [s H]; discriminate | lia].
  - split; [intros [s H]; discriminate | intros [_ [H _]]; congruence].
  - split; [intros [s H]; discriminate | intros [_ [_ [H _]]]; congruence].
  - destruct (approach_succeeds task_id params df task)
      as [Pl [Fo [Fi [It Br]]]].
    destruct (String.eqb_spec approach "planning") as [->|N1].
    { split; [intros _; repeat split; auto; lia | intros _; exact Pl]. }
    destruct (String.eqb_spec approach "breakdown") as [->|N2].
    { rewrite Br. split.
      - intros [R' Hs]. repeat split; try lia; trivial.
        right. right. right. right. repeat split; try lia. exact Hs.
      - intros [_ [_ [_ [H|[H|[H|[[H _]|[_ [H0 Hs]]]]]]]]]; try discriminate.
        split; [lia | exact Hs]. }
    destruct (String.eqb_spec approach "focus") as [->|N3].
    { split; [intros _; repeat split; auto; lia | intros _; exact Fo]. }
    destruct (String.eqb_spec approach "iterative") as [->|N4].
    { rewrite It. split.
      - intros R'. repeat split; try lia; trivial.
        right. right. right. left. split; [reflexivity | lia].
      - intros [_ [_ [_ [H|[H|[H|[[_ H0]|[H _]]]]]]]]; try discriminate. lia. }
    destruct (String.eqb_spec approach "fixed") as [->|N5].
    { split; [intros _; repeat split; auto; lia | intros _; exact Fi]. }
    split; [intros [s H]; discriminate|].
    intros [_ [_ [_ [H|[H|[H|[[H _]|[H _]]]]]]]]; congruence.
Qed.

(** The error replies.  A call is answered 404 "Task not found" exactly
    when the id is at or above the length, 400 "No subtasks provided"
    exactly when a breakdown on a task that [iloc] finds comes without
    subtasks, 400 "Invalid approach" exactly when the approach is none of
    the five for such a task; there is no other error reply. *)
Theorem error_replies (task_id : Z) (approach : string) (params : Params)
        (df : TasksDF) (code : nat) (message : string) :
  breakdown_task task_id approach params df = Error code message
  <-> (code = 404%nat /\ message = "Task not found"%string
       /\ (Z.of_nat (List.length (rows df)) <= task_id)%Z)
      \/ (code = 400%nat
          /\ (- Z.of_nat (List.length (rows df)) <= task_id
              < Z.of_nat (List.length (rows df)))%Z
          /\ has_Task (columns df) = true
          /\ has_Estimated_Time (columns df) = true
          /\ ((message = "No subtasks provided"
               /\ approach = "breakdown" /\ subtasks params = [])
              \/ (message = "Invalid approach"
                  /\ approach <> "planning" /\ approach <> "breakdown"
                  /\ approach <> "focus" /\ approach <> "iterative"
                  /\ approach <> "fixed"))%string).
Proof.
  rewrite dispatch.
  destruct (guarded_cases task_id df
              (fun task =>
                 if (approach =? "planning")%string
                 then planning task_id params df task
                 else if (approach =? "breakdown")%string
                 then breakdown task_id params df task
                 else if (approach =? "focus")%string
                 then focus task_id params df task
                 else if (approach =? "iterative")%string
                 then iterative task_id params df task
                 else if (approach =? "fixed")%string
                 then fixed task_id params df task
                 else Error 400 "Invalid approach"))
    as [[R ->] | [[R ->] | [[R [T ->]] | [[R [T [E ->]]] | [R [T [E [task [_ ->]]]]]]]]].
  - split.
    + intros [= <- <-]. left. repeat split. exact R.
    + intros [[-> [-> _]] | [_ [R' _]]]; [reflexivity | lia].
  - split; [discriminate|].
    intros [[_ [_ R']] | [_ [R' _]]]; lia.
  - split; [discriminate|].
    intros [[_ [_ R']] | [_ [_ [H _]]]]; [lia | congruence].
  - split; [discriminate|].
    intros [[_ [_ R']] | [_ [_ [_ [H _]]]]]; [lia | congruence].
  - destruct (String.eqb_spec approach "planning") as [->|N1].
    { unfold planning. split; [discriminate|].
      intros [[_ [_ R']] | [_ [_ [_ [_ [[_ [H _]] | [_ [H _]]]]]]]];
        [lia | discriminate | congruence]. }
    destruct (String.eqb_spec approach "breakdown") as [->|N2].
    { unfold breakdown. destruct (subtasks params) as [|s0 l] eqn:Es.
      - split.
        + intros [= <- <-]. right. repeat split; trivial; try lia. left. auto.
        + intros [[_ [_ R']] | [-> [_ [_ [_ [[-> _] | [_ [_ [H _]]]]]]]]];
            [lia | reflexivity | congruence].
      - destruct (drop task_id (label_rows (rows df)));
          (split; [discriminate|]);
          intros [[_ [_ R']] | [_ [_ [_ [_ [[_ [_ H]] | [_ [_ [H _]]]]]]]]];
          try lia; congruence. }
    destruct (String.eqb_spec approach "focus") as [->|N3].
    { unfold focus. split; [discriminate|].
      intros [[_ [_ R']] | [_ [_ [_ [_ [[_ [H _]] | [_ [_ [_ [H _]]]]]]]]]];
        [lia | discriminate | congruence]. }
    destruct (String.eqb_spec approach "iterative") as [->|N4].
    { unfold iterative.
      destruct (drop task_id (label_rows (rows df)));
        (split; [discriminate|]);
        intros [[_ [_ R']] | [_ [_ [_ [_ [[_ [H _]] | [_ [_ [_ [_ [H _]]]]]]]]]]];
        try lia; try discriminate; congruence. }
    destruct (String.eqb_spec approach "fixed") as [->|N5].
    { unfold fixed. split; [discriminate|].
      intros [[_ [_ R']] | [_ [_ [_ [_ [[_ [H _]] | [_ [_ [_ [_ [_ H]]]]]]]]]]];
        [lia | discriminate | congruence]. }
    split.
    + intros [= <- <-]. right. repeat split; trivial; try lia.
      right. repeat split; assumption.
    + intros [[_ [_ R']] | [-> [_ [_ [_ [[_ [H _]] | [-> _]]]]]]];
        [lia | congruence | reflexivity].
Qed.

(** *** Planning and breakdown *)

Lemma length_remove_at {A : Type} (i : nat) (l : list A) :
  (i < List.length l)%nat ->
  List.length (remove_at i l) = (List.length l - 1)%nat.
Proof.
  intro H. unfold remove_at.
  rewrite length_app, length_firstn, length_skipn. lia.
Qed.

(** The rows of the table after the rename of the planning approach, for
    an id that is not negative. *)
Lemma planning_rows (task_id : Z) (params : Params) (df saved : TasksDF) :
  breakdown_task task_id "planning" params df = Success saved ->
  (0 <= task_id)%Z ->
  exists i t new_task,
    task_id = Z.of_nat i
    /\ nth_error (rows df) i = Some t
    /\ rows saved
       = (unlabel (update_label task_id
                     (set_Task (Some (str (Task t) ++ " [PENDING PLANNING]")%string))
                     (label_rows (rows df)))
          ++ [new_task])%list
    /\ new_task
       = {| Project := if has_Project (columns df) then Project t
                       else Some "Planning"%string;
            Task := Some (get_or ("Plan breakdown of: " ++ str (Task t))%string
                                 (taskName params));
            Estimated_Time := Some (get_or 1 (hours params));
            Due_Date := date params;
            Importance := Some 4%Z;
            Complexity := Some 2%Z;
            Focus_Sessions := None;
            Session_Length := None;
            Event_Type := None |}.
Proof.
  rewrite dispatch_planning. intros H Hge.
  apply guarded_success in H. destruct H as [task [Hlt [Hloc H]]].
  unfold planning in H. inversion H as [Hs]. clear H Hs. cbn [rows].
  exists (Z.to_nat task_id), task. eexists.
  assert (Eid : task_id = Z.of_nat (Z.to_nat task_id)) by lia.
  split; [exact Eid|].
  split; [rewrite Eid, iloc_nonneg in Hloc; exact Hloc|].
  split; [|reflexivity].
  unfold at_set.
  assert (L : has_label task_id (label_rows (rows df)) = true)
    by (apply has_label_label_rows; lia).
  rewrite L. reflexivity.
Qed.

(** The planning approach on a task id that is not negative keeps every
    task in place, appends " [PENDING PLANNING]" to the name of the target
    and changes nothing else of it, and adds one task at the end: the
    planning task, with importance 4 and complexity 2, the project of the
    target, and the name, date and hours of the request (by default
    "Plan breakdown of: name", no date and 1 hour). *)
Theorem planning_adds_a_planning_task (task_id : Z) (params : Params)
        (df saved : TasksDF) :
  breakdown_task task_id "planning" params df = Success saved ->
  (0 <= task_id)%Z ->
  exists i t,
    task_id = Z.of_nat i
    /\ nth_error (rows df) i = Some t
    /\ List.length (rows saved) = S (List.length (rows df))
    /\ (forall j u,
          nth_error (rows df) j = Some u ->
          nth_error (rows saved) j
          = Some (if (j =? i)%nat
                  then set_Task (Some (str (Task t) ++ " [PENDING PLANNING]")%string) u
                  else u))
    /\ nth_error (rows saved) (List.length (rows df))
       = Some {| Project := if has_Project (columns df) then Project t
                            else Some "Planning"%string;
                 Task := Some (get_or ("Plan breakdown of: " ++ str (Task t))%string
                                      (taskName params));
                 Estimated_Time := Some (get_or 1 (hours params));
                 Due_Date := date params;
                 Importance := Some 4%Z;
                 Complexity := Some 2%Z;
                 Focus_Sessions := None;
                 Session_Length := None;
                 Event_Type := None |}.
Proof.
  intros H Hge.
  destruct (planning_rows task_id params df saved H Hge)
    as [i [t [new_task [Eid [Hn [Hr Hnew]]]]]].
  exists i, t. split; [exact Eid|]. split; [exact Hn|].
  assert (Len : List.length
                  (unlabel (update_label task_id
                     (set_Task (Some (str (Task t) ++ " [PENDING PLANNING]")%string))
                     (label_rows (rows df))))
                = List.length (rows df)).
  { rewrite <- (length_label_rows (rows df)).
    apply length_unlabel_same. apply labels_update_label. }
  rewrite Hr. split; [rewrite length_app, Len; cbn; lia|]. split.
  - intros j u Hj.
    rewrite nth_error_app1
      by (rewrite Len; apply nth_error_Some; congruence).
    unfold unlabel, update_label. rewrite !nth_error_map, nth_label_rows, Hj.
    cbn [option_map fst snd]. subst task_id.
    destruct (Nat.eqb_spec j i) as [->|N].
    + rewrite Z.eqb_refl. reflexivity.
    + destruct (Z.eqb_spec (Z.of_nat j) (Z.of_nat i)); [lia | reflexivity].
  - rewrite nth_error_app2 by (rewrite Len; lia).
    rewrite Len, Nat.sub_diag, Hnew. reflexivity.
Qed.

(** A successful breakdown has a valid task id and at least one subtask;
    it removes the task and appends one task per subtask, in order, each
    with the subtask's name and hours and every other field of the
    removed task; the table keeps its columns. *)
Theorem breakdown_replaces_the_task (task_id : Z) (params : Params)
        (df saved : TasksDF) :
  breakdown_task task_id "breakdown" params df = Success saved ->
  exists i t,
    task_id = Z.of_nat i
    /\ nth_error (rows df) i = Some t
    /\ subtasks params <> []
    /\ rows saved
       = (remove_at i (rows df)
          ++ map (fun subtask =>
                    set_Estimated_Time (Some (sub_hours subtask))
                      (set_Task (Some (sub_name subtask)) t))
                 (subtasks params))%list
    /\ List.length (rows saved)
       = (List.length (rows df) - 1 + List.length (subtasks params))%nat
    /\ columns saved = columns df.
Proof.
  rewrite dispatch_breakdown. intro H.
  apply guarded_success in H. destruct H as [task [Hlt [Hloc H]]].
  unfold breakdown in H.
  destruct (subtasks params) as [|s0 l] eqn:Es; [discriminate|].
  destruct (drop task_id (label_rows (rows df))) as [kept|] eqn:D;
    [|discriminate].
  apply drop_label_rows in D. destruct D as [i [-> [Hi Hu]]].
  rewrite iloc_nonneg in Hloc.
  inversion H as [Hs]. cbn [rows columns].
  exists i, task. split; [reflexivity|]. split; [exact Hloc|].
  split; [discriminate|]. rewrite Hu.
  split; [reflexivity|]. split; [|reflexivity].
  rewrite length_app, (length_remove_at i (rows df) Hi).
  cbn [map List.length]. rewrite length_map. reflexivity.
Qed.

(** A focus or fixed call that succeeds on an id that is not negative has
    a task at that position. *)
Lemma dispatch_focus_target (task_id : Z) (params : Params) (df saved : TasksDF) :
  breakdown_task task_id "focus" params df = Success saved ->
  (0 <= task_id)%Z ->
  exists t, nth_error (rows df) (Z.to_nat task_id) = Some t.
Proof.
  rewrite dispatch_focus. intros H Hge.
  apply guarded_success in H. destruct H as [task [Hlt [Hloc _]]].
  exists task. rewrite <- iloc_nonneg, Z2Nat.id by lia. exact Hloc.
Qed.

Lemma dispatch_fixed_target (task_id : Z) (params : Params) (df saved : TasksDF) :
  breakdown_task task_id "fixed" params df = Success saved ->
  (0 <= task_id)%Z ->
  exists t, nth_error (rows df) (Z.to_nat task_id) = Some t.
Proof.
  rewrite dispatch_fixed. intros H Hge.
  apply guarded_success in H. destruct H as [task [Hlt [Hloc _]]].
  exists task. rewrite <- iloc_nonneg, Z2Nat.id by lia. exact Hloc.
Qed.

(** *** The markers *)

Lemma append_assoc (a b c : string) :
  ((a ++ b) ++ c = a ++ (b ++ c))%string.
Proof.
  induction a as [|x a IH]; cbn; [reflexivity | rewrite IH; reflexivity].
Qed.

(** A name that ends in a space and a tag contains the tag. *)
Lemma contains_suffix_tag (name tag : string) :
  contains tag (name ++ " " ++ tag) = true.
Proof.
  apply PyFacts.contains_iff. exists (name ++ " ")%string, EmptyString.
  rewrite append_assoc. f_equal. f_equal.
  induction tag as [|x tag IH]; cbn; [reflexivity | rewrite <- IH; reflexivity].
Qed.

(** A task the scheduler sees under a name that ends in one of the three
    markers is not a large task. *)
Lemma marked_name_not_large (s : Scheduler.TaskRow) (name : string) :
  Scheduler.Task s = Some (name ++ " [PENDING PLANNING]")%string
  \/ Scheduler.Task s = Some (name ++ " [MULTI-SESSION]")%string
  \/ Scheduler.Task s = Some (name ++ " [FIXED EVENT]")%string ->
  Scheduler.is_large s = false.
Proof.
  intro H. unfold Scheduler.is_large.
  apply andb_false_iff. right. apply negb_false_iff.
  apply existsb_exists.
  destruct H as [H | [H | H]]; rewrite H; cbn [str].
  - exists "[PENDING PLANNING]"%string. split; [cbn; auto|].
    apply (contains_suffix_tag name "[PENDING PLANNING]").
  - exists "[MULTI-SESSION]"%string. split; [cbn; auto|].
    apply (contains_suffix_tag name "[MULTI-SESSION]").
  - exists "[FIXED EVENT]"%string. split; [cbn; auto|].
    apply (contains_suffix_tag name "[FIXED EVENT]").
Qed.

(** The restructurer and the large-task check agree on the markers.
    After a successful planning call, or a focus or fixed call that
    renames by default (no newName, updateName not false), on a task id
    that is not negative, the target carries a name under which the
    scheduler's large-task check does not flag it, whatever its hours. *)
Theorem restructured_task_is_exempt (task_id : Z) (approach : string)
        (params : Params) (df saved : TasksDF) :
  (approach = "planning"
   \/ ((approach = "focus" \/ approach = "fixed")
       /\ newName params = None /\ updateName params <> Some false))%string ->
  breakdown_task task_id approach params df = Success saved ->
  (0 <= task_id)%Z ->
  exists t',
    nth_error (rows saved) (Z.to_nat task_id) = Some t'
    /\ forall s : Scheduler.TaskRow,
         Scheduler.Task s = Task t' -> Scheduler.is_large s = false.
Proof.
  intros Ha H Hge.
  assert (Up : newName params = None -> updateName params <> Some false ->
               get_or true (updateName params) = true).
  { intros _ U. destruct (updateName params) as [[|]|]; cbn; congruence. }
  destruct Ha as [-> | [[-> | ->] [Nn Un]]].
  - destruct (planning_rows task_id params df saved H Hge)
      as [i [t [new_task [Eid [Hn [Hr _]]]]]].
    exists (set_Task (Some (str (Task t) ++ " [PENDING PLANNING]")%string) t).
    split.
    + rewrite Hr, Eid, Nat2Z.id.
      rewrite nth_error_app1.
      * unfold unlabel, update_label.
        rewrite !nth_error_map, nth_label_rows, Hn.
        cbn [option_map fst snd]. rewrite Z.eqb_refl. reflexivity.
      * unfold unlabel, update_label. rewrite !length_map, length_label_rows.
        apply nth_error_Some. congruence.
    + intros s Hs. apply (marked_name_not_large s (str (Task t))).
      left. exact Hs.
  - destruct (focus_frame task_id params df saved H) as [_ F].
    destruct (dispatch_focus_target task_id params df saved H Hge) as [t Ht].
    destruct (F (Z.to_nat task_id) t Ht) as [t' [H1 [_ [_ [_ H5]]]]].
    destruct (H5 ltac:(lia)) as [Hname _].
    rewrite (Up Nn Un), Nn in Hname. cbn [get_or] in Hname.
    exists t'. split; [exact H1|].
    intros s Hs. apply (marked_name_not_large s (str (Task t))).
    right. left. congruence.
  - destruct (fixed_frame task_id params df saved H) as [_ F].
    destruct (dispatch_fixed_target task_id params df saved H Hge) as [t Ht].
    destruct (F (Z.to_nat task_id) t Ht) as [t' [H1 [_ [_ [_ H5]]]]].
    destruct (H5 ltac:(lia)) as [Hname _].
    rewrite (Up Nn Un), Nn in Hname. cbn [get_or] in Hname.
    exists t'. split; [exact H1|].
    intros s Hs. apply (marked_name_not_large s (str (Task t))).
    right. right. congruence.
Qed.

(** *** Exceptions and negative ids *)

(** A call dies on an exception nobody catches exactly when the id is
    below minus the length, or [iloc] finds a task but the table lacks the
    name or the duration column, or an iterative call, or a breakdown with
    subtasks, has a negative id, which [drop] does not find. *)
Theorem uncaught_exceptions (task_id : Z) (approach : string) (params : Params)
        (df : TasksDF) :
  (exists e, breakdown_task task_id approach params df = Raised e)
  <-> ((task_id < - Z.of_nat (List.length (rows df)))%Z
       \/ ((- Z.of_nat (List.length (rows df)) <= task_id
            < Z.of_nat (List.length (rows df)))%Z
           /\ (has_Task (columns df) = false
               \/ has_Estimated_Time (columns df) = false))
       \/ ((- Z.of_nat (List.length (rows df)) <= task_id < 0)%Z
           /\ has_Task (columns df) = true
           /\ has_Estimated_Time (columns df) = true
           /\ (approach = "iterative"
               \/ (approach = "breakdown" /\ subtasks params <> []))%string)).
Proof.
  rewrite dispatch.
  destruct (guarded_cases task_id df
              (fun task =>
                 if (approach =? "planning")%string
                 then planning task_id params df task
                 else if (approach =? "breakdown")%string
                 then breakdown task_id params df task
                 else if (approach =? "focus")%string
                 then focus task_id params df task
                 else if (approach =? "iterative")%string
                 then iterative task_id params df task
                 else if (approach =? "fixed")%string
                 then fixed task_id params df task
                 else Error 400 "Invalid approach"))
    as [[R ->] | [[R ->] | [[R [T ->]] | [[R [T [E ->]]] | [R [T [E [task [_ ->]]]]]]]]].
  - split; [intros [e H]; discriminate|].
    intros [H | [[H _] | [H _]]]; lia.
  - split; [intros _; left; exact R | intros _; eauto].
  - split; [intros _; right; left; auto | intros _; eauto].
  - split; [intros _; right; left; auto | intros _; eauto].
  - assert (NoDrop : (task_id < 0)%Z ->
                     drop task_id (label_rows (rows df)) = None).
    { intro H0.
      destruct (drop task_id (label_rows (rows df))) as [kept|] eqn:D;
        [|reflexivity].
      assert (X : (0 <= task_id < Z.of_nat (List.length (rows df)))%Z)
        by (apply drop_in_range; eauto).
      lia. }
    assert (Dropped : (0 <= task_id)%Z ->
                      exists kept,
                        drop task_id (label_rows (rows df)) = Some kept).
    { intro H0. apply drop_in_range. lia. }
    destruct (String.eqb_spec approach "planning") as [->|N1].
    { unfold planning. split; [intros [e H]; discriminate|].
      intros [H | [[_ [H | H]] | [_ [_ [_ [H | [H _]]]]]]];
        try lia; try congruence; discriminate. }
    destruct (String.eqb_spec approach "breakdown") as [->|N2].
    { unfold breakdown. destruct (subtasks params) as [|s0 l] eqn:Es.
      - split; [intros [e H]; discriminate|].
        intros [H | [[_ [H | H]] | [_ [_ [_ [H | [_ H]]]]]]];
          try lia; try congruence; discriminate.
      - destruct (Z_lt_le_dec task_id 0) as [Neg|Pos].
        + rewrite (NoDrop Neg). split; [|intros _; eauto].
          intros _. right. right. repeat split; try lia; trivial.
          right. split; [reflexivity | discriminate].
        + destruct (Dropped Pos) as [kept ->].
          split; [intros [e H]; discriminate|].
          intros [H | [[_ [H | H]] | [H _]]]; try lia; congruence. }
    destruct (String.eqb_spec approach "focus") as [->|N3].
    { unfold focus. split; [intros [e H]; discriminate|].
      intros [H | [[_ [H | H]] | [_ [_ [_ [H | [H _]]]]]]];
        try lia; try congruence; discriminate. }
    destruct (String.eqb_spec approach "iterative") as [->|N4].
    { unfold iterative. destruct (Z_lt_le_dec task_id 0) as [Neg|Pos].
      - rewrite (NoDrop Neg). split; [|intros _; eauto].
        intros _. right. right. repeat split; try lia; trivial.
        left. reflexivity.
      - destruct (Dropped Pos) as [kept ->].
        split; [intros [e H]; discriminate|].
        intros [H | [[_ [H | H]] | [H _]]]; try lia; congruence. }
    destruct (String.eqb_spec approach "fixed") as [->|N5].
    { unfold fixed. split; [intros [e H]; discriminate|].
      intros [H | [[_ [H | H]] | [_ [_ [_ [H | [H _]]]]]]];
        try lia; try congruence; discriminate. }
    split; [intros [e H]; discriminate|].
    intros [H | [[_ [H | H]] | [_ [_ [_ [H | [H _]]]]]]];
      try lia; congruence.
Qed.

(** Setting a cell at a label the table does not have. *)
Lemma at_set_absent (k : Z) (upd : TaskRow -> TaskRow) (l : labelled) :
  has_label k l = false ->
  at_set k upd l = (l ++ [(k, upd nan_row)])%list.
Proof. intro H. unfold at_set. rewrite H. reflexivity. Qed.

Lemma update_label_absent (k : Z) (upd : TaskRow -> TaskRow) (l : labelled) :
  has_label k l = false -> update_label k upd l = l.
Proof.
  unfold has_label, update_label. intro H.
  rewrite <- (map_id l) at 2. apply map_ext_in. intros e Hin.
  destruct (fst e =? k)%Z eqn:E; [|reflexivity].
  assert (T : existsb (fun e => (fst e =? k)%Z) l = true)
    by (apply existsb_exists; eauto).
  congruence.
Qed.

(** Setting a cell at the label of a row appended before. *)
Lemma at_set_appended (k : Z) (upd : TaskRow -> TaskRow) (l : labelled)
      (x : TaskRow) :
  has_label k l = false ->
  at_set k upd (l ++ [(k, x)]) = (l ++ [(k, upd x)])%list.
Proof.
  intro H. unfold at_set.
  assert (P : has_label k (l ++ [(k, x)]) = true).
  { unfold has_label. rewrite existsb_app. cbn. rewrite Z.eqb_refl.
    apply orb_true_iff. right. reflexivity. }
  rewrite P. unfold update_label. rewrite map_app.
  fold (update_label k upd l). rewrite (update_label_absent k upd l H).
  cbn. rewrite Z.eqb_refl. reflexivity.
Qed.

Lemma update_all_appended (upd : TaskRow -> TaskRow) (l : labelled)
      (k : Z) (x : TaskRow) :
  update_all upd (l ++ [(k, x)]) = (update_all upd l ++ [(k, upd x)])%list.
Proof. unfold update_all. rewrite map_app. reflexivity. Qed.

Lemma has_label_update_all (k : Z) (upd : TaskRow -> TaskRow) (l : labelled) :
  has_label k (update_all upd l) = has_label k l.
Proof.
  unfold has_label, update_all.
  induction l as [|e l IH]; cbn; [reflexivity | rewrite IH; reflexivity].
Qed.

Lemma negative_label_absent (k : Z) (l : list TaskRow) :
  (k < 0)%Z -> has_label k (label_rows l) = false.
Proof.
  intro H. destruct (has_label k (label_rows l)) eqn:E; [|reflexivity].
  apply has_label_label_rows in E. lia.
Qed.

(** A table that ends in an appended row, once the labels are dropped. *)
Lemma unlabel_appended (l : labelled) (k : Z) (x : TaskRow) (n : nat) :
  List.length l = n ->
  List.length (unlabel (l ++ [(k, x)])) = S n
  /\ nth_error (unlabel (l ++ [(k, x)])) n = Some x.
Proof.
  intro H. unfold unlabel. rewrite map_app. cbn [map snd]. split.
  - rewrite length_app, length_map, H. cbn. lia.
  - rewrite nth_error_app2 by (rewrite length_map; lia).
    rewrite length_map, H, Nat.sub_diag. reflexivity.
Qed.

Lemma length_update_all (upd : TaskRow -> TaskRow) (l : labelled) :
  List.length (update_all upd l) = List.length l.
Proof. unfold update_all. apply length_map. Qed.

(** With a negative task id a focus or fixed call that succeeds changes
    no task of the table: every task keeps its name and its other default
    fields.  It adds a row at the end instead, a row without project,
    duration, due date, importance or complexity. *)
Theorem negative_id_adds_a_row (task_id : Z) (approach : string)
        (params : Params) (df saved : TasksDF) :
  approach = "focus"%string \/ approach = "fixed"%string ->
  (task_id < 0)%Z ->
  breakdown_task task_id approach params df = Success saved ->
  List.length (rows saved) = S (List.length (rows df))
  /\ (forall i t,
        nth_error (rows df) i = Some t ->
        exists t', nth_error (rows saved) i = Some t'
                   /\ Task t' = Task t /\ same_but_name t t')
  /\ exists added,
       nth_error (rows saved) (List.length (rows df)) = Some added
       /\ Project added = None /\ Estimated_Time added = None
       /\ Due_Date added = None /\ Importance added = None
       /\ Complexity added = None.
Proof.
  intros Ha Neg H.
  pose proof (negative_label_absent task_id (rows df) Neg) as Ab.
  pose proof (length_label_rows (rows df)) as Ln.
  assert (Frame : forall i t,
             nth_error (rows df) i = Some t ->
             exists t', nth_error (rows saved) i = Some t'
                        /\ Task t' = Task t /\ same_but_name t t').
  { intros i t Hn. destruct Ha as [-> | ->].
    - destruct (focus_frame task_id params df saved H) as [_ F].
      destruct (F i t Hn) as [t' [H1 [H2 [_ [H4 _]]]]].
      exists t'. repeat split; try apply H2; trivial.
      apply H4. lia.
    - destruct (fixed_frame task_id params df saved H) as [_ F].
      destruct (F i t Hn) as [t' [H1 [H2 [_ [H4 _]]]]].
      exists t'. repeat split; try apply H2; trivial.
      apply H4. lia. }
  assert (Tail : exists l x,
             rows saved = unlabel (l ++ [(task_id, x)])
             /\ List.length l = List.length (rows df)
             /\ Project x = None /\ Estimated_Time x = None
             /\ Due_Date x = None /\ Importance x = None
             /\ Complexity x = None).
  { destruct Ha as [-> | ->].
    - rewrite dispatch_focus in H.
      apply guarded_success in H. destruct H as [task [_ [_ H]]].
      unfold focus in H. inversion H as [Hs]. clear H Hs. cbn [rows].
      destruct (get_or true (updateName params)),
               (has_Focus_Sessions (columns df)),
               (has_Session_Length (columns df));
        repeat first
          [ rewrite (at_set_absent task_id _ (label_rows (rows df)) Ab)
          | rewrite update_all_appended
          | rewrite at_set_appended
              by (rewrite ?has_label_update_all; exact Ab)
          | rewrite (at_set_absent task_id _
                       (update_all _ (label_rows (rows df))))
              by (rewrite ?has_label_update_all; exact Ab)
          | rewrite (at_set_absent task_id _
                       (update_all _ (update_all _ (label_rows (rows df)))))
              by (rewrite ?has_label_update_all; exact Ab) ];
        eexists; eexists; (split; [reflexivity|]);
        rewrite ?length_update_all; (split; [exact Ln|]);
        cbn; repeat split.
    - rewrite dispatch_fixed in H.
      apply guarded_success in H. destruct H as [task [_ [_ H]]].
      unfold fixed in H. inversion H as [Hs]. clear H Hs. cbn [rows].
      destruct (get_or true (updateName params)),
               (has_Event_Type (columns df));
        repeat first
          [ rewrite (at_set_absent task_id _ (label_rows (rows df)) Ab)
          | rewrite update_all_appended
          | rewrite at_set_appended
              by (rewrite ?has_label_update_all; exact Ab)
          | rewrite (at_set_absent task_id _
                       (update_all _ (label_rows (rows df))))
              by (rewrite ?has_label_update_all; exact Ab)
          | rewrite (at_set_absent task_id _
                       (update_all _ (update_all _ (label_rows (rows df)))))
              by (rewrite ?has_label_update_all; exact Ab) ];
        eexists; eexists; (split; [reflexivity|]);
        rewrite ?length_update_all; (split; [exact Ln|]);
        cbn; repeat split. }
  destruct Tail as [l [x [Hr [Hl Hx]]]].
  destruct (unlabel_appended l task_id x (List.length (rows df)) Hl)
    as [L1 L2].
  rewrite Hr. split; [exact L1|]. split.
  - intros i t Hn. rewrite <- Hr. apply Frame. exact Hn.
  - exists x. split; [exact L2 | exact Hx].
Qed.

(** *** The theorems at work on concrete inputs *)

Import Examples.

Lemma planning_adds_a_planning_task_witness :
  exists saved,
    breakdown_task 0 "planning" no_params stored_one = Success saved
    /\ List.length (rows saved) = 2%nat
    /\ nth_error (rows saved) 0
       = Some (set_Task (Some "Thesis [PENDING PLANNING]"%string) thesis).
Proof.
  eexists. split; [reflexivity|].
  destruct (planning_adds_a_planning_task 0 no_params stored_one _ eq_refl)
    as (i & t & Ei & Ht & Hl & Hj & _); [lia|].
  assert (i = 0%nat) by lia. subst i.
  cbn in Ht. inversion Ht. subst t.
  split; [exact Hl|]. exact (Hj 0%nat thesis eq_refl).
Defined.

Lemma breakdown_replaces_the_task_witness :
  exists saved,
    breakdown_task 0 "breakdown" two_subtasks stored_one = Success saved
    /\ List.length (rows saved) = 2%nat
    /\ columns saved = columns stored_one.
Proof.
  eexists. split; [reflexivity|].
  destruct (breakdown_replaces_the_task 0 two_subtasks stored_one _ eq_refl)
    as (i & t & _ & _ & _ & _ & Hl & Hc).
  split; [exact Hl | exact Hc].
Defined.

Lemma restructured_task_is_exempt_witness :
  exists saved,
    breakdown_task 0 "focus" no_params stored_one = Success saved
    /\ exists t',
         nth_error (rows saved) 0 = Some t'
         /\ forall s : Scheduler.TaskRow,
              Scheduler.Task s = Task t' -> Scheduler.is_large s = false.
Proof.
  eexists. split; [reflexivity|].
  apply (restructured_task_is_exempt 0 "focus" no_params stored_one).
  - right. split; [left; reflexivity|]. split; [reflexivity | discriminate].
  - reflexivity.
  - lia.
Defined.

Lemma negative_id_adds_a_row_witness :
  exists saved,
    breakdown_task (-1) "fixed" no_params stored_one = Success saved
    /\ List.length (rows saved) = 2%nat
    /\ nth_error (rows saved) 0 = Some thesis.
Proof.
  eexists. split; [reflexivity|].
  destruct (negative_id_adds_a_row (-1) "fixed" no_params stored_one _
              (or_intror eq_refl) ltac:(lia) eq_refl) as (Hl & _ & _).
  split; [exact Hl | reflexivity].
Defined.

End RestructureMore.
